(** * csv2txf, Apex Crypto parser ([apex_crypto.py])

    A shallow embedding of the [ApexCrypto] class and of the library
    calls it makes, followed by the properties of the parsing contract.

    Conventions.
    - A Python [str] is a Rocq [string].  The text is taken to be ASCII:
      white space, digits and letters are the ASCII ones.
    - A file is given by its decoded characters, line ends as they are
      in the file; [open] is the text layer that reads them.
    - A raised exception is an [exn]; a computation that may raise
      returns a [result]. *)

From Stdlib Require Import ZArith NArith Ascii String DecimalString Lia.
From stdpp Require Import base option list strings gmap.

Local Open Scope Z_scope.

(** ** Exceptions and the two monads of the embedding *)

Inductive exn : Type :=
| TypeError
| ValueError
| KeyError (key : string)
| IndexError
| AttributeError (attr : string)
| InvalidOperation
| CsvError
| OverflowError.

Inductive result (A : Type) : Type :=
| Ok (a : A)
| Raise (e : exn).
Arguments Ok {A} a.
Arguments Raise {A} e.

Definition result_bind {A B} (f : A -> result B) (m : result A) : result B :=
  match m with
  | Ok a => f a
  | Raise e => Raise e
  end.

#[global] Instance result_mret : MRet result := @Ok.
#[global] Instance result_mbind : MBind result := @result_bind.
#[global] Instance result_fmap : FMap result :=
  fun A B f => result_bind (fun a => Ok (f a)).

Definition is_ok {A} (m : result A) : bool :=
  match m with Ok _ => true | Raise _ => false end.

(** ** [str] methods *)

Definition code (c : ascii) : N := N_of_ascii c.

Definition in_range (lo hi : N) (c : ascii) : bool :=
  ((lo <=? code c) && (code c <=? hi))%N.

(** [str.isspace] on ASCII: TAB, LF, VT, FF, CR, FS, GS, RS, US, SPACE. *)
Definition isspace (c : ascii) : bool :=
  in_range 9 13 c || in_range 28 32 c.

Definition isdigit (c : ascii) : bool := in_range 48 57 c.

(** [c.upper()] and [c.lower()] of one character. *)
Definition upper (c : ascii) : ascii :=
  if in_range 97 122 c then ascii_of_N (code c - 32) else c.

Definition lower (c : ascii) : ascii :=
  if in_range 65 90 c then ascii_of_N (code c + 32) else c.

Definition str_eqb (a b : string) : bool := bool_decide (a = b).

Fixpoint lstrip (s : string) : string :=
  match s with
  | String c r => if isspace c then lstrip r else s
  | EmptyString => EmptyString
  end.

Fixpoint rstrip (s : string) : string :=
  match s with
  | String c r =>
      match rstrip r with
      | EmptyString => if isspace c then EmptyString else String c EmptyString
      | r' => String c r'
      end
  | EmptyString => EmptyString
  end.

Definition strip (s : string) : string := lstrip (rstrip s).

(** [s.replace(c, '')] for a one-character [c]. *)
Fixpoint replace_del (c : ascii) (s : string) : string :=
  match s with
  | String d r =>
      if Ascii.eqb d c then replace_del c r else String d (replace_del c r)
  | EmptyString => EmptyString
  end.

(** [s[0]]. *)
Definition first_char (s : string) : result ascii :=
  match s with
  | String c _ => Ok c
  | EmptyString => Raise IndexError
  end.

Fixpoint repeat_char (c : ascii) (n : nat) : string :=
  match n with
  | O => EmptyString
  | S k => String c (repeat_char c k)
  end.

Fixpoint str_take (n : nat) (s : string) : string :=
  match n, s with
  | S k, String c r => String c (str_take k r)
  | _, _ => EmptyString
  end.

Fixpoint str_drop (n : nat) (s : string) : string :=
  match n, s with
  | S k, String _ r => str_drop k r
  | _, _ => s
  end.

(** ['%d' % z] and ["%+d" % z]. *)
Definition fmt_d (z : Z) : string := NilZero.string_of_int (Z.to_int z).

Definition fmt_plus_d (z : Z) : string :=
  if z <? 0 then fmt_d z else String "+"%char (fmt_d z).

(** ** [decimal.Decimal]

    The value of a [Decimal] is sign, coefficient and exponent, or one of
    the special values.  The constructor follows the grammar of the
    [decimal] module for numeric strings; no context limit is applied. *)

Inductive Decimal : Type :=
| Finite (sign : bool) (coeff : N) (exp : Z)
| Infinity (sign : bool)
| NaN (sign : bool) (signaling : bool) (diag : N).

#[global] Instance Decimal_eq_dec : EqDecision Decimal.
Proof. solve_decision. Defined.

(** Greedy [\d*]: the digits read and the rest. *)
Fixpoint span_digits (s : string) : string * string :=
  match s with
  | String c r =>
      if isdigit c
      then let '(d, t) := span_digits r in (String c d, t)
      else (EmptyString, s)
  | EmptyString => (EmptyString, EmptyString)
  end.

(** [int(s)] for a string of digits. *)
Fixpoint int_digits (acc : N) (s : string) : N :=
  match s with
  | String c r => int_digits (10 * acc + (code c - 48))%N r
  | EmptyString => acc
  end.

(** A literal matched without regard to case; [lit] is in lower case. *)
Fixpoint eat_ci (lit s : string) : option string :=
  match lit, s with
  | EmptyString, _ => Some s
  | String l lit', String c r =>
      if Ascii.eqb (lower c) l then eat_ci lit' r else None
  | String _ _, EmptyString => None
  end.

(** [[-+]?] *)
Definition eat_sign (s : string) : bool * string :=
  match s with
  | String "-"%char r => (true, r)
  | String "+"%char r => (false, r)
  | _ => (false, s)
  end.

(** [(E(?P<exp>[-+]?\d+))?]: the exponent and the rest when the group
    takes part in the match. *)
Definition eat_exponent (s : string) : option (Z * string) :=
  match eat_ci "e" s with
  | Some r =>
      let '(neg, r1) := eat_sign r in
      let '(ds, r2) := span_digits r1 in
      match ds with
      | EmptyString => None
      | _ =>
          let e := Z.of_N (int_digits 0 ds) in
          Some (if neg then - e else e, r2)
      end
  | None => None
  end.

(** [(?=\d|\.\d)] *)
Definition number_ahead (s : string) : bool :=
  match s with
  | String c r =>
      isdigit c ||
      (Ascii.eqb c "."%char &&
       match r with String d _ => isdigit d | EmptyString => false end)
  | EmptyString => false
  end.

Definition parse_number (sign : bool) (s : string) : option Decimal :=
  if number_ahead s then
    let '(intpart, r1) := span_digits s in
    let '(fracpart, r2) :=
      match r1 with
      | String "."%char r => span_digits r
      | _ => (EmptyString, r1)
      end in
    let '(e, r3) :=
      match eat_exponent r2 with
      | Some (e, r) => (e, r)
      | None => (0, r2)
      end in
    match r3 with
    | EmptyString =>
        Some (Finite sign (int_digits 0 (intpart +:+ fracpart))
                (e - Z.of_nat (String.length fracpart)))
    | _ => None
    end
  else None.

Definition parse_infinity (sign : bool) (s : string) : option Decimal :=
  match eat_ci "inf" s with
  | Some EmptyString => Some (Infinity sign)
  | Some r =>
      match eat_ci "inity" r with
      | Some EmptyString => Some (Infinity sign)
      | _ => None
      end
  | None => None
  end.

Definition parse_nan (sign : bool) (s : string) : option Decimal :=
  let '(signal, r0) :=
    match eat_ci "s" s with
    | Some r => (true, r)
    | None => (false, s)
    end in
  match eat_ci "nan" r0 with
  | Some r =>
      let '(diag, r1) := span_digits r in
      match r1 with
      | EmptyString => Some (NaN sign signal (int_digits 0 diag))
      | _ => None
      end
  | None => None
  end.

(** [Decimal(value)] for a [str]. *)
Definition Decimal_of_str (value : string) : result Decimal :=
  let s := replace_del "_"%char (strip value) in
  let '(sign, r) := eat_sign s in
  match parse_number sign r with
  | Some d => Ok d
  | None =>
      match parse_infinity sign r with
      | Some d => Ok d
      | None =>
          match parse_nan sign r with
          | Some d => Ok d
          | None => Raise InvalidOperation
          end
      end
  end.

Definition N_str (n : N) : string := NilZero.string_of_uint (N.to_uint n).

(** [str(d)]: the scientific string of the [decimal] module. *)
Definition Decimal_str (d : Decimal) : string :=
  match d with
  | Infinity sg => (if sg then "-" else "") +:+ "Infinity"
  | NaN sg signal diag =>
      (if sg then "-" else "") +:+ (if signal then "sNaN" else "NaN")
      +:+ (if (diag =? 0)%N then "" else N_str diag)
  | Finite sg coeff e =>
      let int := N_str coeff in
      let len := Z.of_nat (String.length int) in
      let leftdigits := e + len in
      let dotplace :=
        if (e <=? 0) && (-6 <? leftdigits) then leftdigits else 1 in
      let '(intpart, fracpart) :=
        if dotplace <=? 0 then
          ("0", "." +:+ repeat_char "0"%char (Z.to_nat (- dotplace)) +:+ int)
        else if len <=? dotplace then
          (int +:+ repeat_char "0"%char (Z.to_nat (dotplace - len)), "")
        else
          (str_take (Z.to_nat dotplace) int,
           "." +:+ str_drop (Z.to_nat dotplace) int) in
      let exp :=
        if leftdigits =? dotplace then ""
        else "E" +:+ fmt_plus_d (leftdigits - dotplace) in
      (if sg then "-" else "") +:+ intpart +:+ fracpart +:+ exp
  end.

(** [bool(d)]: false only for a finite zero. *)
Definition Decimal_bool (d : Decimal) : bool :=
  match d with
  | Finite _ coeff _ => negb (coeff =? 0)%N
  | _ => true
  end.

(** The truth value of an optional decimal ([None] is false). *)
Definition truthy (a : option Decimal) : bool :=
  match a with
  | Some d => Decimal_bool d
  | None => false
  end.

(** ** [datetime]

    Every [datetime] of this program is built from a year, a month and a
    day; its time of day is midnight and is left out of the record. *)

Record datetime : Type := mk_datetime { year : Z; month : Z; day : Z }.

#[global] Instance datetime_eq_dec : EqDecision datetime.
Proof. solve_decision. Defined.

Record timedelta : Type :=
  mk_timedelta { days : Z; seconds : Z; microseconds : Z }.

Definition is_leap (y : Z) : bool :=
  (y mod 4 =? 0) && (negb (y mod 100 =? 0) || (y mod 400 =? 0)).

Definition DAYS_IN_MONTH : list Z :=
  [-1; 31; 28; 31; 30; 31; 30; 31; 31; 30; 31; 30; 31].

Definition DAYS_BEFORE_MONTH : list Z :=
  [-1; 0; 31; 59; 90; 120; 151; 181; 212; 243; 273; 304; 334].

Definition days_in_month (y m : Z) : Z :=
  if (m =? 2) && is_leap y then 29
  else nth (Z.to_nat m) DAYS_IN_MONTH 0.

Definition days_before_year (y : Z) : Z :=
  let y1 := y - 1 in y1 * 365 + y1 / 4 - y1 / 100 + y1 / 400.

Definition days_before_month (y m : Z) : Z :=
  nth (Z.to_nat m) DAYS_BEFORE_MONTH 0
  + (if (2 <? m) && is_leap y then 1 else 0).

Definition toordinal (d : datetime) : Z :=
  days_before_year (year d) + days_before_month (year d) (month d) + day d.

(** The arguments of [datetime] are converted to C [int]s before they
    are looked at. *)
Definition fits_int (z : Z) : bool :=
  (-2147483648 <=? z) && (z <=? 2147483647).

(** [datetime(y, m, d)]: [y] may be [None] in this program. *)
Definition datetime_new (y : option Z) (m d : Z) : result datetime :=
  match y with
  | None => Raise TypeError
  | Some y =>
      if negb (fits_int y && fits_int m && fits_int d) then Raise OverflowError
      else if negb ((1 <=? y) && (y <=? 9999)) then Raise ValueError
      else if negb ((1 <=? m) && (m <=? 12)) then Raise ValueError
      else if negb ((1 <=? d) && (d <=? days_in_month y m)) then Raise ValueError
      else Ok (mk_datetime y m d)
  end.

(** [a - b] *)
Definition datetime_sub (a b : datetime) : timedelta :=
  mk_timedelta (toordinal a - toordinal b) 0 0.

(** Attribute access on a [timedelta]: it has [days], [seconds] and
    [microseconds], and nothing else. *)
Definition timedelta_getattr (t : timedelta) (name : string) : result Z :=
  if str_eqb name "days" then Ok (days t)
  else if str_eqb name "seconds" then Ok (seconds t)
  else if str_eqb name "microseconds" then Ok (microseconds t)
  else Raise (AttributeError name).

(** [d == s] for a [datetime] and a [str]: objects of unrelated types
    are never equal. *)
Definition datetime_eq_str (d : datetime) (s : string) : bool := false.

(** *** [datetime.strptime(s, '%Y-%m-%d')]

    The format is compiled to the regular expression
    [(?P<Y>\d\d\d\d)-(?P<m>1[0-2]|0[1-9]|[1-9])-(?P<d>3[0-1]|[1-2]\d|0[1-9]|[1-9]| [1-9])],
    matched at the start of [s]; text left over after the match is an
    error, and so is a day that the month does not have. *)

Definition rx (A : Type) : Type := string -> option (A * string).

Definition rx_lit (c : ascii) : rx unit := fun s =>
  match s with
  | String d r => if Ascii.eqb d c then Some (tt, r) else None
  | EmptyString => None
  end.

Definition rx_digit (lo hi : N) : rx Z := fun s =>
  match s with
  | String d r =>
      if in_range (48 + lo) (48 + hi) d
      then Some (Z.of_N (code d - 48), r) else None
  | EmptyString => None
  end.

(** Ordered choice with backtracking into the continuation [k]. *)
Fixpoint rx_alt {A R} (alts : list (rx A)) (k : A -> rx R) : rx R := fun s =>
  match alts with
  | [] => None
  | p :: ps =>
      match p s ≫= (fun '(v, r) => k v r) with
      | Some x => Some x
      | None => rx_alt ps k s
      end
  end.

Definition rx_Y : rx Z := fun s =>
  '(a, r) ← rx_digit 0 9 s; '(b, r) ← rx_digit 0 9 r;
  '(c, r) ← rx_digit 0 9 r; '(d, r) ← rx_digit 0 9 r;
  Some (1000 * a + 100 * b + 10 * c + d, r).

Definition rx_m : list (rx Z) :=
  [ (fun s => '(_, r) ← rx_lit "1" s; '(b, r) ← rx_digit 0 2 r; Some (10 + b, r));
    (fun s => '(_, r) ← rx_lit "0" s; rx_digit 1 9 r);
    rx_digit 1 9 ].

Definition rx_d : list (rx Z) :=
  [ (fun s => '(_, r) ← rx_lit "3" s; '(b, r) ← rx_digit 0 1 r; Some (30 + b, r));
    (fun s => '(a, r) ← rx_digit 1 2 s; '(b, r) ← rx_digit 0 9 r; Some (10 * a + b, r));
    (fun s => '(_, r) ← rx_lit "0" s; rx_digit 1 9 r);
    rx_digit 1 9;
    (fun s => '(_, r) ← rx_lit " " s; rx_digit 1 9 r) ].

Definition rx_Ymd : rx (Z * Z * Z) := fun s =>
  '(y, r) ← rx_Y s;
  '(_, r) ← rx_lit "-" r;
  rx_alt rx_m (fun m r =>
    '(_, r) ← rx_lit "-" r;
    rx_alt rx_d (fun d r => Some (y, m, d, r)) r) r.

Definition strptime_Ymd (s : string) : result datetime :=
  match rx_Ymd s with
  | None => Raise ValueError
  | Some (y, m, d, EmptyString) =>
      match datetime_new (Some y) m d with
      | Ok dt => Ok dt
      | Raise _ => Raise ValueError
      end
  | Some (_, String _ _) => Raise ValueError
  end.

(** ** Text files and [csv.reader]

    [csv.reader] with a comma as delimiter, the double quote as quote
    character and the other settings of the default dialect: a quote is
    doubled inside a quoted field, no escape character, no strict mode.
    The reader is the automaton of the [_csv] module (CPython 3.11 and
    later), fed one line of the file at a time; a field longer than the
    field size limit is its only error on such lines. *)

(** [open(filename)], from the characters of the file to the text the
    file object hands over: in text mode with the default [newline=None]
    a carriage return followed by a line feed, and a carriage return on
    its own, are read as one line feed.  [after_cr] is the pending
    carriage return of the decoder. *)
Fixpoint translate_newlines (after_cr : bool) (raw : string) : string :=
  match raw with
  | EmptyString => EmptyString
  | String c r =>
      if Ascii.eqb c "013"%char
      then String "010"%char (translate_newlines true r)
      else if Ascii.eqb c "010"%char && after_cr
      then translate_newlines false r
      else String c (translate_newlines false r)
  end.

Definition open (content : string) : string :=
  translate_newlines false content.

(** [f.readline()]: the first line with its ["\n"], and the rest. *)
Fixpoint readline (s : string) : string * string :=
  match s with
  | EmptyString => (EmptyString, EmptyString)
  | String c r =>
      if Ascii.eqb c "010"%char then (String c EmptyString, r)
      else let '(l, t) := readline r in (String c l, t)
  end.

(** Iterating over the file: its lines, each with its ["\n"]. *)
Fixpoint file_lines (s : string) : list string :=
  match s with
  | EmptyString => []
  | String c r =>
      if Ascii.eqb c "010"%char then String c EmptyString :: file_lines r
      else match file_lines r with
           | [] => [String c EmptyString]
           | l :: ls => String c l :: ls
           end
  end.

Inductive ParserState : Type :=
| START_RECORD | START_FIELD | IN_FIELD
| IN_QUOTED_FIELD | QUOTE_IN_QUOTED_FIELD | EAT_CRNL.

#[global] Instance ParserState_eq_dec : EqDecision ParserState.
Proof. solve_decision. Defined.

(** The reader object: [field] holds the characters of the field being
    read, last one first. *)
Record Reader : Type := mk_Reader {
  state : ParserState;
  fields : list string;
  field : string;
  field_len : N
}.

Definition field_limit : N := 131072.

Definition parse_reset : Reader := mk_Reader START_RECORD [] EmptyString 0.

Definition set_state (st : ParserState) (self : Reader) : Reader :=
  mk_Reader st (fields self) (field self) (field_len self).

Definition parse_save_field (self : Reader) : Reader :=
  mk_Reader (state self) (fields self ++ [String.rev (field self)])
    EmptyString 0.

Definition parse_add_char (self : Reader) (c : ascii) : result Reader :=
  if (field_limit <=? field_len self)%N then Raise CsvError
  else Ok (mk_Reader (state self) (fields self) (String c (field self))
             (field_len self + 1)).

Definition is_crnl (c : ascii) : bool :=
  Ascii.eqb c "010"%char || Ascii.eqb c "013"%char.

Definition delimiter : ascii := ","%char.
Definition quotechar : ascii := "034"%char.

(** One step of the automaton; [None] is the end-of-line mark that the
    reader sends after the last character of each line. *)
Definition parse_process_char (self : Reader) (c : option ascii)
  : result Reader :=
  let start_field (self : Reader) :=
    match c with
    | None => Ok (set_state START_RECORD (parse_save_field self))
    | Some ch =>
        if is_crnl ch then Ok (set_state EAT_CRNL (parse_save_field self))
        else if Ascii.eqb ch quotechar then Ok (set_state IN_QUOTED_FIELD self)
        else if Ascii.eqb ch delimiter then Ok (parse_save_field self)
        else set_state IN_FIELD <$> parse_add_char self ch
    end in
  match state self with
  | START_RECORD =>
      match c with
      | None => Ok self
      | Some ch =>
          if is_crnl ch then Ok (set_state EAT_CRNL self)
          else start_field (set_state START_FIELD self)
      end
  | START_FIELD => start_field self
  | IN_FIELD =>
      match c with
      | None => Ok (set_state START_RECORD (parse_save_field self))
      | Some ch =>
          if is_crnl ch then Ok (set_state EAT_CRNL (parse_save_field self))
          else if Ascii.eqb ch delimiter
          then Ok (set_state START_FIELD (parse_save_field self))
          else parse_add_char self ch
      end
  | IN_QUOTED_FIELD =>
      match c with
      | None => Ok self
      | Some ch =>
          if Ascii.eqb ch quotechar
          then Ok (set_state QUOTE_IN_QUOTED_FIELD self)
          else parse_add_char self ch
      end
  | QUOTE_IN_QUOTED_FIELD =>
      match c with
      | None => Ok (set_state START_RECORD (parse_save_field self))
      | Some ch =>
          if Ascii.eqb ch quotechar
          then set_state IN_QUOTED_FIELD <$> parse_add_char self ch
          else if Ascii.eqb ch delimiter
          then Ok (set_state START_FIELD (parse_save_field self))
          else if is_crnl ch
          then Ok (set_state EAT_CRNL (parse_save_field self))
          else set_state IN_FIELD <$> parse_add_char self ch
      end
  | EAT_CRNL =>
      match c with
      | None => Ok (set_state START_RECORD self)
      | Some ch => if is_crnl ch then Ok self else Raise CsvError
      end
  end.

(** A whole line, then the end-of-line mark. *)
Fixpoint feed_line (self : Reader) (line : string) : result Reader :=
  match line with
  | String c r =>
      match parse_process_char self (Some c) with
      | Ok self' => feed_line self' r
      | Raise e => Raise e
      end
  | EmptyString => parse_process_char self None
  end.

(** The records the reader yields, each with the number of lines of the
    file it was read from, and the error that ends the iteration if there
    is one.  [self] and [nlines] belong to the record being read: lines
    are taken until the automaton is back in [START_RECORD]; at the end of
    the input an unfinished record is yielded as it stands. *)
Fixpoint reader_records (self : Reader) (nlines : nat) (input : list string)
  : list (list string * nat) * option exn :=
  match input with
  | [] =>
      if negb (field_len self =? 0)%N
         || bool_decide (state self = IN_QUOTED_FIELD)
      then ([(fields (parse_save_field self), nlines)], None)
      else ([], None)
  | line :: rest =>
      match feed_line self line with
      | Raise e => ([], Some e)
      | Ok self' =>
          if bool_decide (state self' = START_RECORD)
          then
            let '(recs, err) := reader_records parse_reset 0 rest in
            ((fields self', S nlines) :: recs, err)
          else reader_records self' (S nlines) rest
      end
  end.

(** [csv.reader(open(filename), ...)], with the delimiter and the quote
    character above, on the file whose characters are [content]. *)
Definition csv_reader (content : string) : list (list string * nat) * option exn :=
  reader_records parse_reset 0 (file_lines (open content)).

(** The text of a file from its lines, and a quoted field, for the
    examples. *)
Definition unlines (ls : list string) : string :=
  foldr (fun l acc => l +:+ String "010"%char acc) EmptyString ls.

Definition quoted (s : string) : string :=
  String quotechar s +:+ String quotechar EmptyString.

(** ** [dict] of [str] *)

(** [d[k]] *)
Definition getitem {V} (d : gmap string V) (k : string) : result V :=
  match d !! k with
  | Some v => Ok v
  | None => Raise (KeyError k)
  end.

(** [l[i]] *)
Definition getindex {A} (l : list A) (i : nat) : result A :=
  match l !! i with
  | Some v => Ok v
  | None => Raise IndexError
  end.

(** ** The shared helpers of [utils] *)

Module utils.

(** Modelled from the spec: the class [utils.Transaction], which is not
    among the sources.  It is the record of section 3 of the spec, with a
    date and a display string for each of the two dates; a new record has
    no field set, and a field that is not set reads as [None]. *)
Record Transaction : Type := mk_Transaction {
  desc : option string;
  costBasis : option Decimal;
  saleProceeds : option Decimal;
  buyDate : option datetime;
  buyDateStr : option string;
  sellDate : option datetime;
  sellDateStr : option string;
  adjustment : option Decimal;
  entryCode : option Z
}.

Definition new : Transaction :=
  mk_Transaction None None None None None None None None None.

Definition set_desc (v : option string) (t : Transaction) :=
  mk_Transaction v (costBasis t) (saleProceeds t) (buyDate t) (buyDateStr t)
    (sellDate t) (sellDateStr t) (adjustment t) (entryCode t).
Definition set_costBasis (v : option Decimal) (t : Transaction) :=
  mk_Transaction (desc t) v (saleProceeds t) (buyDate t) (buyDateStr t)
    (sellDate t) (sellDateStr t) (adjustment t) (entryCode t).
Definition set_saleProceeds (v : option Decimal) (t : Transaction) :=
  mk_Transaction (desc t) (costBasis t) v (buyDate t) (buyDateStr t)
    (sellDate t) (sellDateStr t) (adjustment t) (entryCode t).
Definition set_buyDate (v : option datetime) (t : Transaction) :=
  mk_Transaction (desc t) (costBasis t) (saleProceeds t) v (buyDateStr t)
    (sellDate t) (sellDateStr t) (adjustment t) (entryCode t).
Definition set_buyDateStr (v : option string) (t : Transaction) :=
  mk_Transaction (desc t) (costBasis t) (saleProceeds t) (buyDate t) v
    (sellDate t) (sellDateStr t) (adjustment t) (entryCode t).
Definition set_sellDate (v : option datetime) (t : Transaction) :=
  mk_Transaction (desc t) (costBasis t) (saleProceeds t) (buyDate t)
    (buyDateStr t) v (sellDateStr t) (adjustment t) (entryCode t).
Definition set_sellDateStr (v : option string) (t : Transaction) :=
  mk_Transaction (desc t) (costBasis t) (saleProceeds t) (buyDate t)
    (buyDateStr t) (sellDate t) v (adjustment t) (entryCode t).
Definition set_adjustment (v : option Decimal) (t : Transaction) :=
  mk_Transaction (desc t) (costBasis t) (saleProceeds t) (buyDate t)
    (buyDateStr t) (sellDate t) (sellDateStr t) v (entryCode t).
Definition set_entryCode (v : option Z) (t : Transaction) :=
  mk_Transaction (desc t) (costBasis t) (saleProceeds t) (buyDate t)
    (buyDateStr t) (sellDate t) (sellDateStr t) (adjustment t) v.

(** Reading an attribute in order to use its value. *)
Definition attr {A} (name : string) (v : option A) : result A :=
  match v with
  | Some a => Ok a
  | None => Raise (AttributeError name)
  end.

(** A computation that writes to the warning channel: the lines written,
    then the value or the exception. *)
Record Out (A : Type) : Type :=
  mk_Out { warnings : list string; outcome : result A }.
Arguments mk_Out {A} warnings outcome.
Arguments warnings {A} o.
Arguments outcome {A} o.

Definition lift {A} (r : result A) : Out A := mk_Out [] r.

Definition Out_bind {A B} (f : A -> Out B) (m : Out A) : Out B :=
  match outcome m with
  | Ok a => mk_Out (warnings m ++ warnings (f a)) (outcome (f a))
  | Raise e => mk_Out (warnings m) (Raise e)
  end.

#[global] Instance Out_mret : MRet Out := fun A a => mk_Out [] (Ok a).
#[global] Instance Out_mbind : MBind Out := @Out_bind.

(** Modelled from the spec: the function [utils.Warning], which is not
    among the sources.  The warning channel receives the text it is
    given. *)
Definition Warning (text : string) : Out unit := mk_Out [text] (Ok tt).

End utils.

(** ** The class [ApexCrypto] *)

Definition nl : string := String "010"%char EmptyString.

Definition FIRST_LINE : string :=
  "ACCOUNT_ID,TAX_YEAR,SUBLOT_ID,SECNO,CUSIP,SYMBOL,SEC_DESCR,SEC_TYPE,SEC_SUBTYPE,SUBACCOUNT_TYPE,OPEN_TRAN_ID,CLOSE_TRAN_ID-SEQNO,OPEN_DATE,CLOSE_DATE,CLOSE_EVENT,DISPOSAL_METHOD,QUANTITY,LONG_SHORT_IND,NO_WS_COST,NO_WS_PROCEEDS,NO_WS_GAINLOSS,WS_COST_ADJ,WS_PROC_ADJ,WS_LOSS_ID-SEQNO,1099_ACQ_DATE,1099_DISP_DATE,1099_COST,1099_PROCEEDS,GROSS_NET_IND,TOTAL_GAINLOSS,ORDINARY_GAINLOSS,1099_DISALLOWED_LOSS,1099_MARKET_DISCOUNT,8949_GAINLOSS,8949_CODE,HOLDING_DATE,TERM,COVERED_IND,8949_BOX,1099_1256_CY_REALIZED,1099_1256_PY_UNREALIZED,1099_1256_CY_UNREALIZED,1099_1256_AGGREGATE"
  +:+ nl.

Definition TRANSACTION_TYPE : string := "Trans type".

Module ApexCrypto.

Import utils.

Definition name : string := "Apex Crypto".

(** Returns wash sale disallowed amount *)
Definition washSaleDisallowedAmount (dict : gmap string string)
  : result (option Decimal) :=
  v ← getitem dict "1099_DISALLOWED_LOSS";
  let value := rstrip v in
  if str_eqb value "$0.00" then Ok None
  else Some <$> Decimal_of_str (replace_del "$" (replace_del "," value)).

(** Returns date of transaction as datetime object. *)
Definition buyDate (dict : gmap string string) : result datetime :=
  v ← getitem dict "OPEN_DATE"; strptime_Ymd v.

(** Returns date of transaction as datetime object. *)
Definition sellDate (dict : gmap string string) : result datetime :=
  v ← getitem dict "CLOSE_DATE"; strptime_Ymd v.

Definition isShortTerm (dict : gmap string string) : result bool :=
  s ← sellDate dict;
  b ← buyDate dict;
  let timedelta := datetime_sub s b in
  years ← timedelta_getattr timedelta "years";
  Ok (years <=? 1).

Definition symbol (dict : gmap string string) : result string :=
  getitem dict "SYMBOL".

Definition numShares (dict : gmap string string) : result Decimal :=
  v ← getitem dict "QUANTITY"; Decimal_of_str v.

Definition costBasis (dict : gmap string string) : result Decimal :=
  v ← getitem dict "1099_COST";
  Decimal_of_str (replace_del "$" (replace_del "," v)).

Definition saleProceeds (dict : gmap string string) : result Decimal :=
  v ← getitem dict "1099_PROCEEDS";
  Decimal_of_str (replace_del "$" (replace_del "," v)).

Definition isFileForBroker (content : string) : bool :=
  let f := open content in
  let first_line := fst (readline f) in
  str_eqb first_line FIRST_LINE.

Definition code_map : gmap string Z :=
  list_to_map
    [("A", 321); ("B", 711); ("C", 712); ("D", 323); ("E", 713); ("F", 714)].

(** The text handed to [utils.Warning] for a skipped transaction. *)
Definition ignoring_txn (desc : string) (line_num tax_year : Z) : string :=
  "ignoring txn: " +:+ quoted desc +:+ " (line " +:+ fmt_d line_num
  +:+ ") as the sale is not from " +:+ fmt_d tax_year +:+ nl.

(** ['%s' % v] for an attribute that holds a [str] or [None]. *)
Definition fmt_s (v : option string) : string := default "None" v.

Section parse.

(** [utils.txfDate] is not among the sources and the spec does not give
    its format: the parser is taken over any rendering of dates. *)
Variable txfDate : datetime -> string.

Variable tax_year : option Z.
Variables buy_date sell_date : datetime.

(** Lines 117 to 119: the names of the header matched to the values of
    the row, position by position. *)
Fixpoint fill_dict (names row : list string) (range : list nat)
    (txn_dict : gmap string string) : result (gmap string string) :=
  match range with
  | [] => Ok txn_dict
  | i :: range' =>
      v ← getindex row i;
      k ← getindex names i;
      fill_dict names row range' (<[k := v]> txn_dict)
  end.

(** Lines 117 to 153: the record of one data row.  [names] is [None]
    until the header has been read, and [len(None)] raises. *)
Definition build_txn (names : option (list string)) (row : list string)
  : result Transaction :=
  names ← (match names with Some l => Ok l | None => Raise TypeError end);
  txn_dict ← fill_dict names row (seq 0 (length names)) ∅;
  let curr_txn := utils.new in
  adjustment ← washSaleDisallowedAmount txn_dict;
  let curr_txn :=
    if negb (truthy adjustment) then set_adjustment adjustment curr_txn
    else curr_txn in
  n ← numShares txn_dict;
  s ← symbol txn_dict;
  let curr_txn := set_desc (Some (Decimal_str n +:+ " " +:+ s)) curr_txn in
  c ← costBasis txn_dict;
  let curr_txn := set_costBasis (Some c) curr_txn in
  d ← buyDate txn_dict;
  let curr_txn := set_buyDate (Some d) curr_txn in
  d ← attr "buyDate" (utils.buyDate curr_txn);
  let curr_txn :=
    if datetime_eq_str d "Various"
    then set_buyDateStr (Some "Various") (set_buyDate (Some buy_date) curr_txn)
    else set_buyDateStr (Some (txfDate d)) curr_txn in
  p ← saleProceeds txn_dict;
  let curr_txn := set_saleProceeds (Some p) curr_txn in
  d ← sellDate txn_dict;
  let curr_txn := set_sellDate (Some d) curr_txn in
  d ← attr "sellDate" (utils.sellDate curr_txn);
  let curr_txn :=
    if datetime_eq_str d "Various"
    then set_sellDateStr (Some "Various") (set_sellDate (Some sell_date) curr_txn)
    else set_sellDateStr (Some (txfDate d)) curr_txn in
  box ← getitem txn_dict "8949_BOX";
  c0 ← first_char box;
  e ← getitem code_map (String (upper c0) EmptyString);
  Ok (set_entryCode (Some e) curr_txn).

(** Lines 155 to 160, for a tax year that is an [int] or [None]: the
    result is [None] when the row is skipped ([continue]), the record when
    it goes to the list. *)
Definition year_filter (line_num : Z) (curr_txn : Transaction)
  : Out (option Transaction) :=
  match tax_year with
  | Some y =>
      if negb (y =? 0) then
        d ← lift (attr "sellDate" (utils.sellDate curr_txn));
        if negb (year d =? y) then
          _ ← Warning (ignoring_txn (fmt_s (utils.desc curr_txn)) line_num y);
          mret None
        else mret (Some curr_txn)
      else mret (Some curr_txn)
  | None => mret (Some curr_txn)
  end.

(** The loop of lines 111 to 160 over the rows the reader yields; [err]
    is the error of the reader, raised when the rows are used up. *)
Fixpoint for_rows (txns : list (list string)) (err : option exn)
    (line_num : Z) (names : option (list string))
    (txn_list : list Transaction) : Out (list Transaction) :=
  match txns with
  | [] =>
      match err with
      | Some e => lift (Raise e)
      | None => mret txn_list
      end
  | row :: txns' =>
      let line_num := line_num + 1 in
      if line_num =? 1 then for_rows txns' err line_num (Some row) txn_list
      else
        curr_txn ← lift (build_txn names row);
        kept ← year_filter line_num curr_txn;
        match kept with
        | None => for_rows txns' err line_num names txn_list
        | Some t => for_rows txns' err line_num names (txn_list ++ [t])
        end
  end.

End parse.

Definition parseFileToTxnList (txfDate : datetime -> string)
    (content : string) (tax_year : option Z) : Out (list Transaction) :=
  YEAR_BEGIN ← lift (datetime_new tax_year 1 1);
  YEAR_END ← lift (datetime_new tax_year 12 31);
  let buy_date := YEAR_BEGIN in
  let sell_date := YEAR_END in
  let '(txns, err) := csv_reader content in
  for_rows txfDate tax_year buy_date sell_date (fst <$> txns) err 0 None [].

End ApexCrypto.

(** * Vocabulary of the statements *)

Import utils ApexCrypto.

(** ** Records and rows *)

(** The record that [build_txn] hands back, from the values extracted. *)
Definition assembled (txfDate : datetime -> string) (adj : option Decimal)
    (n : Decimal) (s : string) (c : Decimal) (b : datetime) (p : Decimal)
    (sl : datetime) (e : Z) : Transaction :=
  {| desc := Some (Decimal_str n +:+ " " +:+ s);
     utils.costBasis := Some c;
     utils.saleProceeds := Some p;
     utils.buyDate := Some b;
     buyDateStr := Some (txfDate b);
     utils.sellDate := Some sl;
     sellDateStr := Some (txfDate sl);
     adjustment := if truthy adj then None else adj;
     entryCode := Some e |}.

(** The extractors in the order of the loop body, all successful. *)
Definition extracted (d : gmap string string) (adj : option Decimal)
    (n : Decimal) (s : string) (c : Decimal) (b : datetime) (p : Decimal)
    (sl : datetime) : Prop :=
  washSaleDisallowedAmount d = Ok adj /\
  numShares d = Ok n /\ symbol d = Ok s /\ costBasis d = Ok c /\
  buyDate d = Ok b /\ saleProceeds d = Ok p /\ sellDate d = Ok sl.

(** The first and the last day of a year. *)
Definition jan1 (y : Z) : datetime := mk_datetime y 1 1.
Definition dec31 (y : Z) : datetime := mk_datetime y 12 31.

(** The year of sale of a record. *)
Definition sell_year (t : Transaction) : option Z := year <$> utils.sellDate t.

(** The records of the data rows, each with its rank among the data
    rows, the ranks counted from [a]. *)
Definition ranked_from (a : nat) (ts : list Transaction)
  : list (nat * Transaction) :=
  zip (seq a (length ts)) ts.

(** The warning for the data row of rank [k]: it cites line [k + 1]. *)
Definition warning_of (y : Z) (kt : nat * Transaction) : string :=
  ignoring_txn (fmt_s (desc kt.2)) (Z.of_nat kt.1 + 1) y.

(** The warning as the spec words it,
    [ignoring txn: <description in double quotes> (line <n>) as the sale
    is not from <year>], as one line of text: the description, the
    number and the year are given as they are printed. *)
Definition warning_line (description n year : string) : string :=
  "ignoring txn: " +:+ String "034"%char description
  +:+ String "034"%char " (line " +:+ n
  +:+ ") as the sale is not from " +:+ year
  +:+ String "010"%char EmptyString.

(** The ranked records not sold in [y], and the records sold in [y]. *)
Definition skipped (y : Z) (ts : list (nat * Transaction))
  : list (nat * Transaction) :=
  filter (fun kt => sell_year kt.2 <> Some y) ts.

Definition kept (y : Z) (ts : list Transaction) : list Transaction :=
  filter (fun t => sell_year t = Some y) ts.

(** The line of the file, counted from 1, on which the record of index
    [i] starts; the header is the record of index 0 and the data row of
    rank [k] the record of index [k]. *)
Definition first_line_of (recs : list (list string * nat)) (i : nat) : nat :=
  S (sum_list (snd <$> take i recs)).

(** ** Strings *)

(** A line of text: its only line feed is its last character. *)
Fixpoint is_line (l : string) : bool :=
  match l with
  | EmptyString => false
  | String c r =>
      if Ascii.eqb c "010"%char then bool_decide (r = EmptyString)
      else is_line r
  end.

(** The string [s] with the character of index [i] replaced by [c]. *)
Fixpoint str_set (i : nat) (c : ascii) (s : string) : string :=
  match s, i with
  | EmptyString, _ => EmptyString
  | String _ r, O => String c r
  | String d r, S j => String d (str_set j c r)
  end.

(** What [costBasis], [saleProceeds] and [washSaleDisallowedAmount] hand
    to [Decimal]: the value without its commas and dollar signs. *)
Definition unformatted (v : string) : string :=
  replace_del "$" (replace_del "," v).

(** ** The table of entry codes and the malformed rows, as the spec
       words them *)

(** The code of each box letter. *)
Definition box_code (c : ascii) : option Z :=
  if Ascii.eqb c "A" then Some 321
  else if Ascii.eqb c "B" then Some 711
  else if Ascii.eqb c "C" then Some 712
  else if Ascii.eqb c "D" then Some 323
  else if Ascii.eqb c "E" then Some 713
  else if Ascii.eqb c "F" then Some 714
  else None.

(** A value that the parser refuses in the column [k]: a date that
    [strptime] rejects, a number that [Decimal] rejects, a box without a
    letter of the table. *)
Definition refused (k v : string) : Prop :=
  ((k = "OPEN_DATE" \/ k = "CLOSE_DATE") /\ is_ok (strptime_Ymd v) = false) \/
  (k = "QUANTITY" /\ is_ok (Decimal_of_str v) = false) \/
  ((k = "1099_COST" \/ k = "1099_PROCEEDS") /\
   is_ok (Decimal_of_str (unformatted v)) = false) \/
  (k = "1099_DISALLOWED_LOSS" /\ rstrip v <> "$0.00" /\
   is_ok (Decimal_of_str (unformatted (rstrip v))) = false) \/
  (k = "8949_BOX" /\
   match v with
   | String c _ => box_code (upper c) = None
   | EmptyString => True
   end).

(** A malformed row: fewer values than the header has names, or a value
    that the parser refuses in one of the columns it reads. *)
Inductive malformed (names row : list string) : Prop :=
| too_short :
    (length row < length names)%nat -> malformed names row
| bad_value (d : gmap string string) (k v : string) :
    fill_dict names row (seq 0 (length names)) ∅ = Ok d ->
    d !! k = Some v -> refused k v -> malformed names row.

(** ** Rows and files of the examples *)

(** A rendering of dates to run the examples with: [MM/DD/YYYY]. *)
Definition two_digits (z : Z) : string :=
  if z <? 10 then "0" +:+ fmt_d z else fmt_d z.

Definition mdY (d : datetime) : string :=
  two_digits (month d) +:+ "/" +:+ two_digits (day d) +:+ "/" +:+ fmt_d (year d).

(** A data row in the layout of [FIRST_LINE], from the description of
    the asset and the columns the parser reads; the other columns hold
    filler values. *)
Definition apex_row_of (descr sym qty opened closed cost proceeds loss box
    : string) : string :=
  String.concat ","
    ["5XX00001"; "2023"; "1"; "900"; ""; sym; descr; "CRYPTO"; "";
     "CASH"; "T1"; "T2-1"; opened; closed; "SELL"; "FIFO"; qty; "L";
     cost; proceeds; "0"; "0"; "0"; ""; opened; closed; cost; proceeds;
     "G"; "0"; "0"; loss; "0"; "0"; ""; opened; "S"; "C"; box;
     "0"; "0"; "0"; "0"].

Definition apex_row : string -> string -> string -> string -> string ->
    string -> string -> string -> string :=
  apex_row_of "CRYPTO ASSET".

(** The rows of a file as the loop sees them, the names of the columns of
    [FIRST_LINE], the values of a line, and the dictionary of a row under
    the names of [FIRST_LINE]. *)
Definition rows_of (content : string) : list (list string) :=
  fst <$> (csv_reader content).1.

Definition header_names : list string := hd [] (rows_of FIRST_LINE).

Definition row_of (line : string) : list string := hd [] (rows_of line).

Definition dict_of (row : list string) : gmap string string :=
  match fill_dict header_names row (seq 0 (length header_names)) ∅ with
  | Ok d => d
  | Raise _ => ∅
  end.

(** The example of section 8 of the spec. *)
Definition spec_example : string :=
  FIRST_LINE +:+ unlines
    [apex_row "BTC" "2.5" "2023-01-10" "2023-06-01" "$100.00" "$150.00"
       "$0.00" "C"].

(** A sale with a disallowed loss of five dollars, and the record that
    the row yields. *)
Definition wash_sale_line : string :=
  apex_row "BTC" "2.5" "2023-01-10" "2023-06-01" "$100.00" "$95.00" "$5.00" "C".

Definition wash_sale_row : list string := row_of wash_sale_line.

Definition wash_sale_txn : Transaction :=
  {| desc := Some "2.5 BTC";
     utils.costBasis := Some (Finite false 10000 (-2));
     utils.saleProceeds := Some (Finite false 9500 (-2));
     utils.buyDate := Some (mk_datetime 2023 1 10);
     buyDateStr := Some "01/10/2023";
     utils.sellDate := Some (mk_datetime 2023 6 1);
     sellDateStr := Some "06/01/2023";
     adjustment := None;
     entryCode := Some 712 |}.

(** Thirteen months between purchase and sale. *)
Definition thirteen_months : gmap string string :=
  {[ "OPEN_DATE" := "2022-01-01"; "CLOSE_DATE" := "2023-02-01" ]}.

(** A sale reported in box [c] (lower case) and one in a box [x]. *)
Definition box_c_row : list string :=
  row_of (apex_row "BTC" "2.5" "2023-01-10" "2023-06-01" "$100.00" "$150.00"
            "$0.00" "c").

Definition box_x_row : list string :=
  row_of (apex_row "BTC" "2.5" "2023-01-10" "2023-06-01" "$100.00" "$150.00"
            "$0.00" "x").

(** A purchase on various dates. *)
Definition various_line : string :=
  apex_row "BTC" "2.5" "Various" "2023-06-01" "$100.00" "$150.00" "$0.00" "C".

(** Amounts with trailing white space, a comma and dollar signs. *)
Definition amounts_example : gmap string string :=
  {[ "1099_DISALLOWED_LOSS" := "$0.00  "; "1099_COST" := "$1,234.56";
     "1099_PROCEEDS" := "1,000" ]}.

(** Three sales, of 2023, 2022 and 2023, and their records. *)
Definition three_sales : string :=
  FIRST_LINE +:+ unlines
    [apex_row "BTC" "2.5" "2023-01-10" "2023-06-01" "$100.00" "$150.00"
       "$0.00" "C";
     apex_row "ETH" "1" "2021-03-01" "2022-06-01" "$9.00" "$8.00" "$0.00" "a";
     apex_row "SOL" "10" "2022-12-30" "2023-01-02" (quoted "$1,234.56")
       "$1300" "$0.00" "F"].

Definition three_sales_txns : list Transaction :=
  [assembled mdY None (Finite false 25 (-1)) "BTC" (Finite false 10000 (-2))
     (mk_datetime 2023 1 10) (Finite false 15000 (-2)) (mk_datetime 2023 6 1)
     712;
   assembled mdY None (Finite false 1 0) "ETH" (Finite false 900 (-2))
     (mk_datetime 2021 3 1) (Finite false 800 (-2)) (mk_datetime 2022 6 1)
     321;
   assembled mdY None (Finite false 10 0) "SOL" (Finite false 123456 (-2))
     (mk_datetime 2022 12 30) (Finite false 1300 0) (mk_datetime 2023 1 2)
     714].

(** Two sales, the first with a line break inside its quoted
    description, the second of another year. *)
Definition broken_line_sales : string :=
  FIRST_LINE +:+ unlines
    [apex_row_of (quoted (unlines ["CRYPTO"] +:+ "ASSET"))
       "BTC" "2.5" "2023-01-10" "2023-06-01" "$100.00" "$150.00" "$0.00" "C";
     apex_row "ETH" "1" "2021-03-01" "2022-06-01" "$9.00" "$8.00" "$0.00" "a"].

(** A row with one value more than the header has names. *)
Definition long_row_file : string :=
  FIRST_LINE +:+ unlines
    [apex_row "BTC" "2.5" "2023-01-10" "2023-06-01" "$100.00" "$150.00"
       "$0.00" "C" +:+ ",EXTRA"].

(** A good row, then a row of three values. *)
Definition short_row_file : string :=
  FIRST_LINE +:+ unlines
    [apex_row "ETH" "1" "2021-03-01" "2022-06-01" "$9.00" "$8.00" "$0.00" "a";
     "5XX00001,2023,2"].

(** ** Further vocabulary: dictionaries, returned records, characters *)

(** The value that the header [names] gives the column [k] in [row]: the
    one at the last position where the header has [k]. *)
Definition column_value (names row : list string) (k : string)
  : option string :=
  snd <$> last (filter (fun kv => kv.1 = k) (zip names row)).

(** The columns that the loop body reads, in the order it reads them. *)
Definition columns_read : list string :=
  ["1099_DISALLOWED_LOSS"; "QUANTITY"; "SYMBOL"; "1099_COST"; "OPEN_DATE";
   "1099_PROCEEDS"; "CLOSE_DATE"; "8949_BOX"].

(** A header with the column [SYMBOL] twice, and a header without the
    column [QUANTITY]. *)
Definition twice_symbol : list string := ["SYMBOL"; "QUANTITY"; "SYMBOL"].

Definition no_quantity : list string :=
  ["1099_DISALLOWED_LOSS"; "SYMBOL"; "1099_COST"; "OPEN_DATE";
   "1099_PROCEEDS"; "CLOSE_DATE"; "8949_BOX"].

Definition no_quantity_file : string :=
  unlines
    ["1099_DISALLOWED_LOSS,SYMBOL,1099_COST,OPEN_DATE,1099_PROCEEDS,CLOSE_DATE,8949_BOX";
     "$0.00,BTC,$100.00,2023-01-10,$150.00,2023-06-01,C"].

(** ** Returned records *)

(** The entry codes of the table of line 152. *)
Definition entry_codes : list Z := [321; 711; 712; 323; 713; 714].

(** An adjustment that is not set, or is a zero. *)
Definition unset_or_zero (a : option Decimal) : Prop :=
  a = None \/ exists sg e, a = Some (Finite sg 0 e).

(** The header of a file and its data rows, as the reader yields them. *)
Definition header_of (content : string) : list string :=
  hd [] (rows_of content).

Definition data_rows (content : string) : list (list string) :=
  tail (rows_of content).

(** What holds of the record [t] returned for the tax year [y] from the
    data row [row] under the header [names]: its fields are what the
    extractors give on the dictionary of the row. *)
Definition returned_record (txfDate : datetime -> string) (y : Z)
    (names row : list string) (t : Transaction) : Prop :=
  exists d adj n s c b p sl box c0 e,
    fill_dict names row (seq 0 (length names)) ∅ = Ok d /\
    numShares d = Ok n /\ symbol d = Ok s /\
    desc t = Some (Decimal_str n +:+ " " +:+ s) /\
    costBasis d = Ok c /\ utils.costBasis t = Some c /\
    saleProceeds d = Ok p /\ utils.saleProceeds t = Some p /\
    buyDate d = Ok b /\
    utils.buyDate t = Some b /\ buyDateStr t = Some (txfDate b) /\
    sellDate d = Ok sl /\
    utils.sellDate t = Some sl /\ sellDateStr t = Some (txfDate sl) /\
    year sl = y /\
    d !! "8949_BOX" = Some (String c0 box) /\
    box_code (upper c0) = Some e /\
    entryCode t = Some e /\ e ∈ entry_codes /\
    washSaleDisallowedAmount d = Ok adj /\
    adjustment t = (if truthy adj then None else adj) /\
    unset_or_zero (adjustment t).

(** The names of the columns of [FIRST_LINE]. *)
Definition FIRST_LINE_columns : list string :=
  ["ACCOUNT_ID"; "TAX_YEAR"; "SUBLOT_ID"; "SECNO"; "CUSIP"; "SYMBOL";
   "SEC_DESCR"; "SEC_TYPE"; "SEC_SUBTYPE"; "SUBACCOUNT_TYPE"; "OPEN_TRAN_ID";
   "CLOSE_TRAN_ID-SEQNO"; "OPEN_DATE"; "CLOSE_DATE"; "CLOSE_EVENT";
   "DISPOSAL_METHOD"; "QUANTITY"; "LONG_SHORT_IND"; "NO_WS_COST";
   "NO_WS_PROCEEDS"; "NO_WS_GAINLOSS"; "WS_COST_ADJ"; "WS_PROC_ADJ";
   "WS_LOSS_ID-SEQNO"; "1099_ACQ_DATE"; "1099_DISP_DATE"; "1099_COST";
   "1099_PROCEEDS"; "GROSS_NET_IND"; "TOTAL_GAINLOSS"; "ORDINARY_GAINLOSS";
   "1099_DISALLOWED_LOSS"; "1099_MARKET_DISCOUNT"; "8949_GAINLOSS";
   "8949_CODE"; "HOLDING_DATE"; "TERM"; "COVERED_IND"; "8949_BOX";
   "1099_1256_CY_REALIZED"; "1099_1256_PY_UNREALIZED";
   "1099_1256_CY_UNREALIZED"; "1099_1256_AGGREGATE"].

(** A file of one line that is no header of the broker. *)
Definition one_line_file : string := unlines ["not,the,header"].

(** ** Characters of a value *)

(** The character [c] occurs in [s]. *)
Fixpoint str_has (c : ascii) (s : string) : bool :=
  match s with
  | EmptyString => false
  | String a r => Ascii.eqb a c || str_has c r
  end.

(** ** Line ends *)

(** The header without its line end, and a carriage return. *)
Definition header_text : string := String.concat "," FIRST_LINE_columns.

Definition cr : string := String "013"%char EmptyString.

(** A file with the line ends of Windows: the header and one sale, each
    followed by a carriage return and a line feed. *)
Definition crlf_file : string :=
  header_text +:+ cr +:+ nl
  +:+ apex_row "BTC" "2.5" "2023-01-10" "2023-06-01" "$100.00" "$150.00"
        "$0.00" "C" +:+ cr +:+ nl.

(** The header line with its line feed replaced by a carriage return,
    and a file that starts with it. *)
Definition cr_header : string :=
  str_set (String.length header_text) "013"%char FIRST_LINE.

Definition cr_file : string :=
  cr_header
  +:+ apex_row "BTC" "2.5" "2023-01-10" "2023-06-01" "$100.00" "$150.00"
        "$0.00" "C" +:+ cr.

(** An ASCII character.  On these the white space and the digits of the
    embedding are those of Python. *)
Definition is_ascii (c : ascii) : bool := (code c <? 128)%N.

(** The ASCII characters that a string accepted by [Decimal] is made of:
    white space, digits, letters, the underscore, the signs and the
    point. *)
Definition decimal_alphabet (c : ascii) : bool :=
  isspace c || isdigit c || in_range 97 122 (lower c)
  || Ascii.eqb c "_" || Ascii.eqb c "+" || Ascii.eqb c "-" || Ascii.eqb c ".".

(** All the characters of [s] are lower-case letters. *)
Fixpoint all_lower (s : string) : bool :=
  match s with
  | EmptyString => true
  | String a r => in_range 97 122 a && all_lower r
  end.

(** A quantity with a thousands separator. *)
Definition thousand_shares : gmap string string :=
  {[ "QUANTITY" := "1,000"; "1099_COST" := "1,000" ]}.

(** A dictionary without dates, and one with a date of sale only. *)
Definition sale_only : gmap string string :=
  {[ "CLOSE_DATE" := "2023-02-01" ]}.

(** * Properties *)

(** ** The library calls at work *)

Example Decimal_examples :
  Decimal_of_str "1234.56" = Ok (Finite false 123456 (-2)) /\
  Decimal_of_str " -.5e+3 " = Ok (Finite true 5 2) /\
  Decimal_of_str "1_000." = Ok (Finite false 1000 0) /\
  Decimal_of_str "$5" = Raise InvalidOperation /\
  Decimal_of_str "." = Raise InvalidOperation /\
  Decimal_of_str "5e" = Raise InvalidOperation /\
  Decimal_of_str "-InFinity" = Ok (Infinity true) /\
  Decimal_of_str "snan12" = Ok (NaN false true 12) /\
  Decimal_str (Finite false 25 (-1)) = "2.5" /\
  Decimal_str (Finite false 0 (-2)) = "0.00" /\
  Decimal_str (Finite true 1 (-7)) = "-1E-7" /\
  Decimal_str (Finite false 5 3) = "5E+3" /\
  Decimal_str (Finite false 123 (-5)) = "0.00123" /\
  Decimal_str (Finite false 123456 (-2)) = "1234.56".
Proof. repeat split; reflexivity. Qed.

Example strptime_examples :
  strptime_Ymd "2023-06-01" = Ok (mk_datetime 2023 6 1) /\
  strptime_Ymd "2023-6-1" = Ok (mk_datetime 2023 6 1) /\
  strptime_Ymd "2024-02-29" = Ok (mk_datetime 2024 2 29) /\
  strptime_Ymd "2023-02-29" = Raise ValueError /\
  strptime_Ymd "2023-06-011" = Raise ValueError /\
  strptime_Ymd "0000-01-01" = Raise ValueError /\
  strptime_Ymd "23-06-01" = Raise ValueError /\
  strptime_Ymd "Various" = Raise ValueError /\
  toordinal (mk_datetime 1 1 1) = 1 /\
  toordinal (mk_datetime 2023 2 1) - toordinal (mk_datetime 2022 1 1) = 396.
Proof. repeat split; reflexivity. Qed.

Example csv_reader_examples :
  csv_reader (unlines ["a,b"; "1," +:+ quoted (unlines ["x,"] +:+ "y") +:+ ",3";
                       ""; quoted ("p" +:+ quoted "" +:+ "q") +:+ ","])
  = ([ (["a"; "b"], 1%nat);
       (["1"; unlines ["x,"] +:+ "y"; "3"], 2%nat);
       ([], 1%nat);
       (["p" +:+ String quotechar "q"; ""], 1%nat) ], None) /\
  csv_reader (unlines ["a,b"] +:+ "c")
  = ([ (["a"; "b"], 1%nat); (["c"], 1%nat) ], None) /\
  csv_reader (unlines ["a"] +:+ quoted "b" +:+ "c" +:+ String quotechar "d")
  = ([ (["a"], 1%nat); (["bc" +:+ String quotechar "d"], 1%nat) ], None) /\
  csv_reader "" = ([], None).
Proof. repeat split; reflexivity. Qed.

Example open_examples :
  open ("a,b" +:+ cr +:+ nl +:+ "c" +:+ cr +:+ "d" +:+ nl +:+ cr +:+ cr +:+ nl)
  = unlines ["a,b"; "c"; "d"; ""; ""] /\
  csv_reader ("a,b" +:+ cr +:+ nl +:+ "c" +:+ cr +:+ "d")
  = ([ (["a"; "b"], 1%nat); (["c"], 1%nat); (["d"], 1%nat) ], None) /\
  parseFileToTxnList mdY crlf_file (Some 2023)
  = mk_Out [] (Ok [assembled mdY None (Finite false 25 (-1)) "BTC"
                     (Finite false 10000 (-2)) (mk_datetime 2023 1 10)
                     (Finite false 15000 (-2)) (mk_datetime 2023 6 1) 712]).
Proof. split; [|split]; vm_compute; reflexivity. Qed.

(** ** The embedding at work: the example of section 8 of the spec *)

Example spec_example_2023 :
  isFileForBroker spec_example = true /\
  parseFileToTxnList mdY spec_example (Some 2023) =
  mk_Out []
    (Ok [ {| desc := Some "2.5 BTC";
             utils.costBasis := Some (Finite false 10000 (-2));
             utils.saleProceeds := Some (Finite false 15000 (-2));
             utils.buyDate := Some (mk_datetime 2023 1 10);
             buyDateStr := Some "01/10/2023";
             utils.sellDate := Some (mk_datetime 2023 6 1);
             sellDateStr := Some "06/01/2023";
             adjustment := None;
             entryCode := Some 712 |} ]).
Proof. split; vm_compute; reflexivity. Qed.

Example spec_example_2022 :
  parseFileToTxnList mdY spec_example (Some 2022) =
  mk_Out ["ignoring txn: " +:+ quoted "2.5 BTC"
          +:+ " (line 2) as the sale is not from 2022" +:+ nl]
    (Ok []).
Proof. vm_compute; reflexivity. Qed.

(** ** The result monad *)

Lemma bind_ok {A B} (m : result A) (f : A -> result B) (b : B) :
  m ≫= f = Ok b <-> exists a, m = Ok a /\ f a = Ok b.
Proof.
  destruct m as [a|e]; simpl; split.
  - intros H. exists a. auto.
  - intros (a' & Ha & H). congruence.
  - discriminate.
  - intros (a' & Ha & _). discriminate.
Qed.

Lemma not_ok_raise {A} (m : result A) :
  (forall a, m <> Ok a) -> exists e, m = Raise e.
Proof. destruct m as [a|e]; [intros H; destruct (H a eq_refl) | eauto]. Qed.

(** ** The record of one row *)

Lemma build_txn_spec txfDate bd sd names row t :
  build_txn txfDate bd sd (Some names) row = Ok t <->
  exists d adj n s c b p sl box c0 e,
    fill_dict names row (seq 0 (length names)) ∅ = Ok d /\
    extracted d adj n s c b p sl /\
    getitem d "8949_BOX" = Ok box /\ first_char box = Ok c0 /\
    getitem code_map (String (upper c0) EmptyString) = Ok e /\
    t = assembled txfDate adj n s c b p sl e.
Proof.
  unfold build_txn, extracted. split.
  - intros H.
    repeat (apply bind_ok in H; destruct H as (? & ? & H)).
    repeat match goal with
           | E : Ok _ = Ok _ |- _ => injection E as E; subst
           | E : attr _ _ = Ok _ |- _ => simpl in E; injection E as E; subst
           end.
    do 11 eexists. repeat split; try eassumption.
    unfold datetime_eq_str, assembled. destruct (truthy _); reflexivity.
  - intros (d & adj & n & s & c & b & p & sl & box & c0 & e
            & Hd & (Ha & Hn & Hs & Hc & Hb & Hp & Hsl) & Hbox & Hc0 & He & ->).
    simpl. rewrite Hd. simpl. rewrite Ha. simpl. rewrite Hn. simpl.
    rewrite Hs. simpl. rewrite Hc. simpl. rewrite Hb. simpl.
    rewrite Hp. simpl. rewrite Hsl. simpl. rewrite Hbox. simpl.
    rewrite Hc0. simpl. rewrite He. simpl.
    unfold datetime_eq_str, assembled. destruct (truthy _); reflexivity.
Qed.

(** A row shorter than the header runs out of values. *)
Lemma fill_dict_short names row range d :
  (forall i, i ∈ range -> (i < length names)%nat) ->
  (exists i, i ∈ range /\ (length row <= i)%nat) ->
  fill_dict names row range d = Raise IndexError.
Proof.
  revert d. induction range as [|i range IH]; intros d Hin Hex.
  - destruct Hex as (i & Hi & _). inversion Hi.
  - simpl. unfold getindex.
    destruct (row !! i) as [v|] eqn:Hv; simpl; [|reflexivity].
    destruct (names !! i) as [k|] eqn:Hk; simpl.
    2:{ apply lookup_ge_None in Hk.
        pose proof (Hin i ltac:(left)). lia. }
    apply IH.
    + intros j Hj. apply Hin. now right.
    + destruct Hex as (j & Hj & Hlen).
      apply elem_of_cons in Hj as [->|Hj]; [|eauto].
      apply lookup_lt_Some in Hv. lia.
Qed.

Lemma fill_dict_short_row names row :
  (length row < length names)%nat ->
  fill_dict names row (seq 0 (length names)) ∅ = Raise IndexError.
Proof.
  intros Hlen. apply fill_dict_short.
  - intros i Hi. apply elem_of_seq in Hi. lia.
  - exists (length row). split; [apply elem_of_seq; lia | lia].
Qed.

(** ** The warning channel *)

Lemma Out_eta {A} (o : Out A) : mk_Out (warnings o) (outcome o) = o.
Proof. destruct o; reflexivity. Qed.

Lemma lift_ok_bind {A B} (a : A) (f : A -> Out B) : lift (Ok a) ≫= f = f a.
Proof. unfold mbind, Out_mbind, Out_bind. simpl. apply Out_eta. Qed.

Lemma lift_raise_bind {A B} (e : exn) (f : A -> Out B) :
  lift (Raise e) ≫= f = mk_Out [] (Raise e).
Proof. reflexivity. Qed.

Lemma outcome_bind {A B} (m : Out A) (f : A -> Out B) :
  outcome (m ≫= f) =
  match outcome m with Ok a => outcome (f a) | Raise e => Raise e end.
Proof.
  unfold mbind, Out_mbind, Out_bind. destruct (outcome m); reflexivity.
Qed.

(** ** The loop over the data rows *)

Section loop.

Variable txfDate : datetime -> string.
Variables bd sd : datetime.
Variable names : list string.
Variable err : option exn.

Lemma build_txn_sellDate row t :
  build_txn txfDate bd sd (Some names) row = Ok t ->
  exists sl, utils.sellDate t = Some sl.
Proof.
  intros H. apply build_txn_spec in H.
  destruct H as (d & adj & n & s & c & b & p & sl & box & c0 & e & H).
  exists sl. destruct H as (_ & _ & _ & _ & _ & ->). reflexivity.
Qed.

Lemma for_rows_valid (y : Z) data ts :
  y <> 0 ->
  Forall2 (fun row t => build_txn txfDate bd sd (Some names) row = Ok t)
    data ts ->
  forall (a : nat) acc, (1 <= a)%nat ->
  for_rows txfDate (Some y) bd sd data err (Z.of_nat a) (Some names) acc =
  mk_Out (warning_of y <$> skipped y (ranked_from a ts))
    (match err with
     | Some e => Raise e
     | None => Ok (acc ++ kept y ts)
     end).
Proof.
  intros Hy Hall. induction Hall as [|row t data ts Hrow Hall IH]; intros a acc Ha.
  - simpl. unfold kept. rewrite filter_nil, app_nil_r.
    destruct err; reflexivity.
  - cbn [for_rows].
    replace (Z.of_nat a + 1 =? 1) with false by (symmetry; apply Z.eqb_neq; lia).
    rewrite Hrow, lift_ok_bind.
    destruct (build_txn_sellDate _ _ Hrow) as (sl & Hsl).
    unfold year_filter. apply Z.eqb_neq in Hy. rewrite Hy. cbn [negb].
    rewrite Hsl. cbn [attr]. rewrite lift_ok_bind.
    assert (Hsy : sell_year t = Some (year sl)) by (unfold sell_year; rewrite Hsl; reflexivity).
    unfold ranked_from, skipped, kept in *. cbn [length seq zip zip_with].
    rewrite !filter_cons. cbn [snd]. rewrite !Hsy.
    assert (Hsa : Z.of_nat a + 1 = Z.of_nat (S a)) by lia.
    destruct (Z.eqb_spec (year sl) y) as [Heq|Hne]; cbn [negb].
    + rewrite decide_False by (intros Hc; apply Hc; congruence).
      rewrite decide_True by congruence.
      unfold mret, Out_mret, mbind, Out_mbind, Out_bind. cbn [outcome warnings app].
      rewrite Hsa, (IH (S a) (acc ++ [t])) by lia.
      cbn [outcome warnings]. rewrite <- app_assoc. reflexivity.
    + rewrite decide_True by congruence.
      rewrite decide_False by congruence.
      unfold mret, Out_mret, mbind, Out_mbind, Out_bind, Warning.
      cbn [outcome warnings app].
      rewrite !Hsa, (IH (S a) acc) by lia.
      cbn [outcome warnings fmap list_fmap app]. unfold warning_of. cbn [fst snd].
      rewrite Hsa. reflexivity.
Qed.

Lemma for_rows_ok_inv tax_year data :
  forall (a : Z) acc l, 1 <= a ->
  outcome (for_rows txfDate tax_year bd sd data err a (Some names) acc) = Ok l ->
  err = None /\
  Forall (fun row => exists t, build_txn txfDate bd sd (Some names) row = Ok t)
    data.
Proof.
  induction data as [|row data IH]; intros a acc l Ha H.
  - simpl in H. destruct err; [discriminate|]. split; [reflexivity|constructor].
  - cbn [for_rows] in H.
    replace (a + 1 =? 1) with false in H by (symmetry; apply Z.eqb_neq; lia).
    rewrite outcome_bind in H. cbn [lift outcome] in H.
    destruct (build_txn txfDate bd sd (Some names) row) as [t|e] eqn:Hrow;
      [|discriminate].
    rewrite outcome_bind in H.
    destruct (outcome (year_filter tax_year (a + 1) t)) as [[t'|]|e];
      [| |discriminate];
      apply IH in H; try lia; destruct H as (He & Hall);
      (split; [exact He | constructor; eauto]).
Qed.

End loop.

(** ** The whole parse *)

Lemma fits_int_year y : 1 <= y <= 9999 -> fits_int y = true.
Proof.
  intros Hy. unfold fits_int. apply andb_true_intro.
  split; apply Z.leb_le; lia.
Qed.

Lemma datetime_new_jan1 y :
  1 <= y <= 9999 -> datetime_new (Some y) 1 1 = Ok (mk_datetime y 1 1).
Proof.
  intros Hy. unfold datetime_new. rewrite (fits_int_year y Hy).
  replace (1 <=? y) with true by (symmetry; apply Z.leb_le; lia).
  replace (y <=? 9999) with true by (symmetry; apply Z.leb_le; lia).
  reflexivity.
Qed.

Lemma datetime_new_dec31 y :
  1 <= y <= 9999 -> datetime_new (Some y) 12 31 = Ok (mk_datetime y 12 31).
Proof.
  intros Hy. unfold datetime_new. rewrite (fits_int_year y Hy).
  replace (1 <=? y) with true by (symmetry; apply Z.leb_le; lia).
  replace (y <=? 9999) with true by (symmetry; apply Z.leb_le; lia).
  reflexivity.
Qed.

Lemma parse_data_rows txfDate content y recs err header data :
  1 <= y <= 9999 ->
  csv_reader content = (recs, err) ->
  fst <$> recs = header :: data ->
  parseFileToTxnList txfDate content (Some y) =
  for_rows txfDate (Some y) (mk_datetime y 1 1) (mk_datetime y 12 31)
    data err 1 (Some header) [].
Proof.
  intros Hy Hcsv Hrecs. unfold parseFileToTxnList.
  rewrite datetime_new_jan1, lift_ok_bind by exact Hy.
  rewrite datetime_new_dec31, lift_ok_bind by exact Hy.
  rewrite Hcsv, Hrecs. reflexivity.
Qed.

Lemma parse_ok_inv txfDate content tax_year recs err header data l :
  csv_reader content = (recs, err) ->
  fst <$> recs = header :: data ->
  outcome (parseFileToTxnList txfDate content tax_year) = Ok l ->
  exists bd sd,
    Forall (fun row => exists t, build_txn txfDate bd sd (Some header) row = Ok t)
      data.
Proof.
  intros Hcsv Hrecs H. unfold parseFileToTxnList in H.
  rewrite outcome_bind in H. cbn [lift outcome] in H.
  destruct (datetime_new tax_year 1 1) as [bd|]; [|discriminate].
  rewrite outcome_bind in H. cbn [lift outcome] in H.
  destruct (datetime_new tax_year 12 31) as [sd|]; [|discriminate].
  rewrite Hcsv, Hrecs in H. cbn [for_rows] in H.
  change (0 + 1 =? 1) with true in H. cbv iota in H.
  apply for_rows_ok_inv in H; [|lia].
  exists bd, sd. apply H.
Qed.

(** ** Header signature check *)

Lemma append_cons c s t : String c s +:+ t = String c (s +:+ t).
Proof. reflexivity. Qed.

Lemma readline_parts s : (readline s).1 +:+ (readline s).2 = s.
Proof.
  induction s as [|c s IH]; [reflexivity|].
  simpl. destruct (Ascii.eqb c "010"); [reflexivity|].
  destruct (readline s) as [l t]. simpl in *.
  rewrite append_cons, IH. reflexivity.
Qed.

Lemma readline_is_line l rest :
  is_line l = true -> readline (l +:+ rest) = (l, rest).
Proof.
  induction l as [|c l IH]; [discriminate|].
  intros H. rewrite append_cons. simpl in *.
  destruct (Ascii.eqb c "010").
  - apply bool_decide_eq_true in H. subst l. reflexivity.
  - rewrite (IH H). reflexivity.
Qed.

Lemma append_same_length a b r r' :
  String.length a = String.length b -> a +:+ r = b +:+ r' -> a = b.
Proof.
  revert b. induction a as [|c a IH]; intros [|d b] Hlen H;
    try discriminate; [reflexivity|].
  rewrite !append_cons in H. injection H as -> H.
  f_equal. apply IH; [simpl in Hlen; lia | exact H].
Qed.

Lemma str_set_length i c s : String.length (str_set i c s) = String.length s.
Proof.
  revert i. induction s as [|d s IH]; intros [|i]; simpl; auto.
Qed.

Lemma str_set_get i c s :
  (i < String.length s)%nat -> String.get i (str_set i c s) = Some c.
Proof.
  revert i. induction s as [|d s IH]; intros [|i] H; simpl in *;
    try lia; [reflexivity|]. apply IH. lia.
Qed.

(** ** Line ends under [open] *)

Lemma str_has_app c a b : str_has c (a +:+ b) = str_has c a || str_has c b.
Proof.
  induction a as [|x a IH]; [reflexivity|].
  rewrite append_cons. cbn [str_has]. rewrite IH. apply orb_assoc.
Qed.

Lemma append_assoc (a b c : string) : (a +:+ b) +:+ c = a +:+ (b +:+ c).
Proof.
  induction a as [|x a IH]; [reflexivity|].
  rewrite !append_cons, IH. reflexivity.
Qed.

Lemma append_length (a b : string) :
  String.length (a +:+ b) = (String.length a + String.length b)%nat.
Proof.
  induction a as [|x a IH]; [reflexivity|].
  rewrite append_cons. simpl. rewrite IH. reflexivity.
Qed.

Lemma translate_no_cr b s : str_has "013" (translate_newlines b s) = false.
Proof.
  revert b. induction s as [|c s IH]; intros b; [reflexivity|].
  cbn [translate_newlines].
  destruct (Ascii.eqb c "013") eqn:Hc.
  - cbn [str_has]. rewrite IH. reflexivity.
  - destruct (Ascii.eqb c "010" && b); [apply IH|].
    cbn [str_has]. rewrite Hc, IH. reflexivity.
Qed.

Lemma open_plain a r :
  str_has "013" a = false -> open (a +:+ r) = a +:+ open r.
Proof.
  unfold open. induction a as [|c a IH]; intros H; [reflexivity|].
  cbn [str_has] in H. apply orb_false_elim in H as [Hc Ha].
  rewrite !append_cons. cbn [translate_newlines].
  rewrite Hc, andb_false_r, (IH Ha). reflexivity.
Qed.

Lemma open_no_cr s : str_has "013" s = false -> open s = s.
Proof.
  unfold open. induction s as [|c s IH]; intros H; [reflexivity|].
  cbn [str_has] in H. apply orb_false_elim in H as [Hc Hs].
  cbn [translate_newlines]. rewrite Hc, andb_false_r, (IH Hs). reflexivity.
Qed.

Lemma open_cr r : open (cr +:+ r) = nl +:+ translate_newlines true r.
Proof. reflexivity. Qed.

(** A text that [open] delivers with the line [a] first was written
    with [a] followed by a line feed or by a carriage return. *)
Lemma open_line_inv a raw t :
  str_has "013" a = false -> str_has "010" a = false ->
  open raw = a +:+ nl +:+ t ->
  exists rest, raw = a +:+ nl +:+ rest \/ raw = a +:+ cr +:+ rest.
Proof.
  unfold open. revert raw. induction a as [|x a IH]; intros [|c r] Hcr Hlf H;
    try discriminate.
  - cbn [translate_newlines] in H. exists r.
    destruct (Ascii.eqb c "013") eqn:Hc.
    + apply Ascii.eqb_eq in Hc. subst c. right. reflexivity.
    + rewrite andb_false_r in H. injection H as -> _. left. reflexivity.
  - cbn [str_has] in Hcr, Hlf.
    apply orb_false_elim in Hcr as [Hx Hcr].
    apply orb_false_elim in Hlf as [Hx' Hlf].
    rewrite append_cons in H. cbn [translate_newlines] in H.
    destruct (Ascii.eqb c "013") eqn:Hc.
    + injection H as <- _. discriminate Hx'.
    + rewrite andb_false_r in H. injection H as -> H.
      destruct (IH r Hcr Hlf H) as (rest & [-> | ->]); exists rest;
        [left | right]; rewrite append_cons; reflexivity.
Qed.

Lemma FIRST_LINE_header : FIRST_LINE = header_text +:+ nl.
Proof. vm_compute. reflexivity. Qed.

Lemma header_text_plain :
  str_has "013" header_text = false /\ str_has "010" header_text = false.
Proof. split; vm_compute; reflexivity. Qed.

Lemma isFileForBroker_first_line content :
  isFileForBroker content = true <-> (readline (open content)).1 = FIRST_LINE.
Proof. unfold isFileForBroker, str_eqb. apply bool_decide_eq_true. Qed.

Lemma isFileForBroker_prefix content :
  isFileForBroker content = true <->
  exists rest, open content = FIRST_LINE +:+ rest.
Proof.
  rewrite isFileForBroker_first_line. split.
  - intros H. exists (readline (open content)).2.
    rewrite <- H. symmetry. apply readline_parts.
  - intros (rest & ->). rewrite readline_is_line; [reflexivity|].
    vm_compute. reflexivity.
Qed.

Lemma isFileForBroker_line_end content :
  isFileForBroker content = true <->
  exists rest, content = header_text +:+ nl +:+ rest
            \/ content = header_text +:+ cr +:+ rest.
Proof.
  rewrite isFileForBroker_prefix, FIRST_LINE_header.
  destruct header_text_plain as [Hcr Hlf]. split.
  - intros (t & H). rewrite append_assoc in H.
    exact (open_line_inv _ _ _ Hcr Hlf H).
  - intros (rest & [-> | ->]); rewrite (open_plain _ _ Hcr).
    + exists (open rest). rewrite append_assoc. reflexivity.
    + rewrite open_cr. exists (translate_newlines true rest).
      rewrite !append_assoc. reflexivity.
Qed.

(** C7, counterexample.  The first line of [crlf_file] is the header
    followed by a carriage return and a line feed, one character more
    than [FIRST_LINE]; the first line of [cr_file] is [FIRST_LINE] with
    its last character replaced by a carriage return.  Both files are
    accepted. *)
Lemma crlf_header_counterexample :
  (readline crlf_file).1 = header_text +:+ cr +:+ nl /\
  (readline crlf_file).1 <> FIRST_LINE /\
  isFileForBroker crlf_file = true /\
  (exists rest, cr_file = str_set 578 "013" FIRST_LINE +:+ rest) /\
  (578 < String.length FIRST_LINE)%nat /\
  String.get 578 FIRST_LINE = Some "010"%char /\
  isFileForBroker cr_file = true.
Proof.
  split; [vm_compute; reflexivity|].
  split; [vm_compute; discriminate|].
  split; [vm_compute; reflexivity|].
  split; [eexists; unfold cr_file, cr_header; reflexivity|].
  split; [vm_compute; lia|].
  split; vm_compute; reflexivity.
Qed.

(** C7, amended.  [isFileForBroker] answers true exactly when the first
    line that [open] delivers is [FIRST_LINE]; that is, exactly when the
    file starts with the text of the header followed by a line feed or
    by a carriage return (with or without a line feed after it).  A file
    that starts with [FIRST_LINE] with one character replaced by another
    one gets the answer false, the one exception being the final line
    feed replaced by a carriage return. *)
Theorem isFileForBroker_exact_match (content : string) :
  (isFileForBroker content = true <->
   (readline (open content)).1 = FIRST_LINE) /\
  (isFileForBroker content = true <->
   exists rest, content = header_text +:+ nl +:+ rest
             \/ content = header_text +:+ cr +:+ rest) /\
  (forall (i : nat) (c : ascii) (rest : string),
     (i < String.length FIRST_LINE)%nat ->
     String.get i FIRST_LINE <> Some c ->
     ~ (i = String.length header_text /\ c = "013"%char) ->
     content = str_set i c FIRST_LINE +:+ rest ->
     isFileForBroker content = false) /\
  (forall rest,
     content = str_set (String.length header_text) "013" FIRST_LINE +:+ rest ->
     isFileForBroker content = true).
Proof.
  split; [apply isFileForBroker_first_line|].
  split; [apply isFileForBroker_line_end|].
  split.
  - intros i c rest Hi Hc Hex ->.
    apply not_true_is_false. intros H.
    apply isFileForBroker_line_end in H as (rest' & [H | H]);
      rewrite <- append_assoc in H;
      apply append_same_length in H;
      try (rewrite str_set_length; vm_compute; reflexivity).
    + apply Hc. rewrite <- FIRST_LINE_header in H.
      rewrite <- H at 1. apply str_set_get, Hi.
    + assert (Hget : String.get i (header_text +:+ cr) = Some c).
      { rewrite <- H. apply str_set_get, Hi. }
      destruct (decide (i < String.length header_text)%nat) as [Hlt|Hge].
      * apply Hc. rewrite FIRST_LINE_header.
        rewrite <- (append_correct1 header_text nl i Hlt).
        rewrite (append_correct1 header_text cr i Hlt). exact Hget.
      * assert (Hi' : i = String.length header_text).
        { rewrite FIRST_LINE_header, append_length in Hi.
          change (String.length nl) with 1%nat in Hi. lia. }
        apply Hex. split; [exact Hi'|].
        subst i.
        pose proof (append_correct2 header_text cr 0) as Hcr.
        cbn [Nat.add] in Hcr. rewrite <- Hcr in Hget.
        injection Hget as <-. reflexivity.
  - intros rest ->. apply isFileForBroker_line_end.
    exists rest. right.
    rewrite <- append_assoc. f_equal; vm_compute; reflexivity.
Qed.

Lemma isFileForBroker_exact_match_witness :
  isFileForBroker spec_example = true /\
  isFileForBroker (str_set 11 "Y" FIRST_LINE +:+ "rest") = false.
Proof.
  split.
  - apply (proj2 (proj1 (proj2 (isFileForBroker_exact_match spec_example)))).
    eexists. left. vm_compute. reflexivity.
  - apply (proj1 (proj2 (proj2 (isFileForBroker_exact_match _)))
             11%nat "Y"%char "rest").
    + vm_compute. lia.
    + vm_compute. discriminate.
    + intros [H _]. vm_compute in H. discriminate H.
    + reflexivity.
Defined.

(** ** No tax year *)

Lemma for_rows_no_year txfDate bd sd names data ts :
  Forall2 (fun row t => build_txn txfDate bd sd (Some names) row = Ok t)
    data ts ->
  forall (a : Z) acc, 1 <= a ->
  for_rows txfDate None bd sd data None a (Some names) acc
  = mk_Out [] (Ok (acc ++ ts)).
Proof.
  induction 1 as [|row t data ts Hrow Hall IH]; intros a acc Ha.
  - simpl. rewrite app_nil_r. reflexivity.
  - cbn [for_rows].
    replace (a + 1 =? 1) with false by (symmetry; apply Z.eqb_neq; lia).
    rewrite Hrow, lift_ok_bind.
    unfold year_filter.
    unfold mret, Out_mret, mbind, Out_mbind, Out_bind. cbn [outcome warnings app].
    rewrite (IH (a + 1) (acc ++ [t])) by lia.
    cbn [outcome warnings]. rewrite <- app_assoc. reflexivity.
Qed.

(** C8. What the code does with no tax year: [datetime(tax_year, 1, 1)]
    raises [TypeError] before the file is read, so no row is retained and
    nothing is returned.  The loop is never reached; had it been, it
    would filter nothing and keep the record of every valid row, as the
    test of line 155 lets every record through when there is no tax
    year. *)
Theorem parse_without_tax_year_raises (txfDate : datetime -> string)
    (content : string) :
  parseFileToTxnList txfDate content None = mk_Out [] (Raise TypeError) /\
  (forall bd sd names data ts,
     Forall2 (fun row t => build_txn txfDate bd sd (Some names) row = Ok t)
       data ts ->
     for_rows txfDate None bd sd (names :: data) None 0 None []
     = mk_Out [] (Ok ts)).
Proof.
  split; [reflexivity|].
  intros bd sd names data ts Hall. cbn [for_rows].
  change (0 + 1 =? 1) with true. cbv iota.
  apply (for_rows_no_year _ _ _ _ _ _ Hall (0 + 1) []). lia.
Qed.

(** ** Holding period *)

(** C9. For a row with valid dates [isShortTerm] returns no answer at
    all: a [timedelta] has no attribute [years], and the method raises
    [AttributeError] whatever the time between the two dates. *)
Theorem isShortTerm_raises (dict : gmap string string) (s b : datetime) :
  sellDate dict = Ok s -> buyDate dict = Ok b ->
  isShortTerm dict = Raise (AttributeError "years").
Proof.
  intros Hs Hb. unfold isShortTerm. rewrite Hs. simpl. rewrite Hb. reflexivity.
Qed.

Lemma isShortTerm_raises_witness :
  days (datetime_sub (mk_datetime 2023 2 1) (mk_datetime 2022 1 1)) = 396 /\
  isShortTerm thirteen_months = Raise (AttributeError "years").
Proof.
  split; [reflexivity|].
  apply (isShortTerm_raises thirteen_months
           (mk_datetime 2023 2 1) (mk_datetime 2022 1 1));
    vm_compute; reflexivity.
Defined.

(** ** The dictionary of a row of the examples *)

Lemma dict_of_ok row :
  is_ok (fill_dict header_names row (seq 0 (length header_names)) ∅) = true ->
  fill_dict header_names row (seq 0 (length header_names)) ∅
  = Ok (dict_of row).
Proof. unfold dict_of. destruct (fill_dict _ _ _ _); [reflexivity|discriminate]. Qed.

(** ** Wash-sale adjustment *)

(** C1. What the code does with the adjustment: the field of the record
    is assigned only when the amount is absent or zero, so an amount that
    is present and not zero never reaches the record, whose field stays
    unset. *)
Theorem adjustment_assigned_only_when_falsy (txfDate : datetime -> string)
    (bd sd : datetime) (names row : list string) (d : gmap string string)
    (adj : option Decimal) (t : Transaction) :
  fill_dict names row (seq 0 (length names)) ∅ = Ok d ->
  washSaleDisallowedAmount d = Ok adj ->
  build_txn txfDate bd sd (Some names) row = Ok t ->
  adjustment t = if truthy adj then None else adj.
Proof.
  intros Hd Hadj Ht. apply build_txn_spec in Ht.
  destruct Ht as (d' & adj' & n & s & c & b & p & sl & box & c0 & e
                  & Hd' & (Hadj' & _) & _ & _ & _ & ->).
  rewrite Hd in Hd'. injection Hd' as <-.
  rewrite Hadj in Hadj'. injection Hadj' as <-.
  reflexivity.
Qed.

Lemma adjustment_assigned_only_when_falsy_witness :
  washSaleDisallowedAmount (dict_of wash_sale_row)
  = Ok (Some (Finite false 500 (-2))) /\
  build_txn mdY (jan1 2023) (dec31 2023) (Some header_names) wash_sale_row
  = Ok wash_sale_txn /\
  adjustment wash_sale_txn = None.
Proof.
  split; [vm_compute; reflexivity|].
  split; [vm_compute; reflexivity|].
  apply (adjustment_assigned_only_when_falsy mdY (jan1 2023) (dec31 2023)
           header_names wash_sale_row (dict_of wash_sale_row)
           (Some (Finite false 500 (-2))) wash_sale_txn).
  - apply dict_of_ok. vm_compute. reflexivity.
  - vm_compute. reflexivity.
  - vm_compute. reflexivity.
Defined.

Example wash_sale_parse :
  parseFileToTxnList mdY (FIRST_LINE +:+ unlines [wash_sale_line]) (Some 2023)
  = mk_Out [] (Ok [wash_sale_txn]).
Proof. vm_compute. reflexivity. Qed.

(** ** Entry code *)

Lemma code_map_box_code (c : ascii) :
  getitem code_map (String c EmptyString) =
  match box_code c with
  | Some n => Ok n
  | None => Raise (KeyError (String c EmptyString))
  end.
Proof. destruct c as [[] [] [] [] [] [] [] []]; vm_compute; reflexivity. Qed.

Lemma box_code_letters (c : ascii) :
  is_Some (box_code (upper c)) <->
  In (upper c) ["A"; "B"; "C"; "D"; "E"; "F"]%char.
Proof.
  destruct c as [[] [] [] [] [] [] [] []]; vm_compute; split;
    try (intros [? [=]]); try (intros H; repeat destruct H as [[=]|H]; tauto);
    eauto 10.
Qed.

(** C3. The entry code of a row is read off the first character of its
    [8949_BOX] column, in upper case, through the table A 321, B 711,
    C 712, D 323, E 713, F 714: every record built from the row has that
    code, and a row whose other columns are accepted yields a record as
    soon as the letter is in the table.  For any other first character
    no record is built: the row raises, and the exception is the
    [KeyError] of that character when the other columns are accepted. *)
Theorem entryCode_from_box (txfDate : datetime -> string) (bd sd : datetime)
    (names row : list string) (d : gmap string string) (c : ascii)
    (rest : string) :
  fill_dict names row (seq 0 (length names)) ∅ = Ok d ->
  d !! "8949_BOX" = Some (String c rest) ->
  (forall t, build_txn txfDate bd sd (Some names) row = Ok t ->
             is_Some (entryCode t) /\ entryCode t = box_code (upper c)) /\
  (forall e adj n s cb b p sl,
     box_code (upper c) = Some e -> extracted d adj n s cb b p sl ->
     build_txn txfDate bd sd (Some names) row
     = Ok (assembled txfDate adj n s cb b p sl e)) /\
  (box_code (upper c) = None ->
   (exists e, build_txn txfDate bd sd (Some names) row = Raise e) /\
   (forall adj n s cb b p sl,
      extracted d adj n s cb b p sl ->
      build_txn txfDate bd sd (Some names) row
      = Raise (KeyError (String (upper c) EmptyString)))).
Proof.
  intros Hd Hbox.
  assert (Hget : getitem d "8949_BOX" = Ok (String c rest))
    by (unfold getitem; rewrite Hbox; reflexivity).
  assert (Hinv : forall t, build_txn txfDate bd sd (Some names) row = Ok t ->
                           entryCode t = box_code (upper c) /\
                           is_Some (box_code (upper c))).
  { intros t Ht. apply build_txn_spec in Ht.
    destruct Ht as (d' & adj & n & s & cb & b & p & sl & box & c0 & e
                    & Hd' & _ & Hbox' & Hc0 & He & ->).
    rewrite Hd in Hd'. injection Hd' as <-.
    rewrite Hget in Hbox'. injection Hbox' as <-.
    simpl in Hc0. injection Hc0 as <-.
    rewrite code_map_box_code in He.
    destruct (box_code (upper c)) as [m|]; [|discriminate].
    injection He as ->. simpl. eauto. }
  split; [|split].
  - intros t Ht. destruct (Hinv t Ht) as [-> Hs]. auto.
  - intros e adj n s cb b p sl He Hex. apply build_txn_spec.
    exists d, adj, n, s, cb, b, p, sl, (String c rest), c, e.
    repeat split; try apply Hex; try assumption.
    rewrite code_map_box_code, He. reflexivity.
  - intros Hnone. split.
    + apply not_ok_raise. intros t Ht.
      destruct (Hinv t Ht) as [_ [m Hm]]. congruence.
    + intros adj n s cb b p sl (Ha & Hn & Hs & Hc & Hb & Hp & Hsl).
      unfold build_txn. simpl. rewrite Hd. simpl. rewrite Ha. simpl.
      rewrite Hn. simpl. rewrite Hs. simpl. rewrite Hc. simpl.
      rewrite Hb. simpl. rewrite Hp. simpl. rewrite Hsl. simpl.
      rewrite Hget. simpl. rewrite code_map_box_code, Hnone. reflexivity.
Qed.

Lemma entryCode_from_box_witness :
  build_txn mdY (jan1 2023) (dec31 2023) (Some header_names) box_c_row
  = Ok (assembled mdY None (Finite false 25 (-1)) "BTC"
          (Finite false 10000 (-2)) (mk_datetime 2023 1 10)
          (Finite false 15000 (-2)) (mk_datetime 2023 6 1) 712) /\
  build_txn mdY (jan1 2023) (dec31 2023) (Some header_names) box_x_row
  = Raise (KeyError "X").
Proof.
  split.
  - apply (proj1 (proj2 (entryCode_from_box mdY (jan1 2023) (dec31 2023)
                    header_names box_c_row (dict_of box_c_row) "c" ""
                    ltac:(apply dict_of_ok; vm_compute; reflexivity)
                    ltac:(vm_compute; reflexivity)))).
    + reflexivity.
    + repeat split; vm_compute; reflexivity.
  - apply (proj2 (proj2 (proj2 (entryCode_from_box mdY (jan1 2023) (dec31 2023)
                    header_names box_x_row (dict_of box_x_row) "x" ""
                    ltac:(apply dict_of_ok; vm_compute; reflexivity)
                    ltac:(vm_compute; reflexivity))) eq_refl)
             None (Finite false 25 (-1)) "BTC" (Finite false 10000 (-2))
             (mk_datetime 2023 1 10) (Finite false 15000 (-2))
             (mk_datetime 2023 6 1)).
    repeat split; vm_compute; reflexivity.
Defined.

(** ** Dates *)

(** C4. What the code does with the dates: a row whose [OPEN_DATE] or
    [CLOSE_DATE] is the word [Various] is refused by [strptime] with a
    [ValueError] before the test for [Various] is reached, so no record
    is built from it; in every record that is built, both dates are the
    parsed ones and both display strings are their renderings by
    [txfDate]. *)
Theorem various_date_raises (txfDate : datetime -> string) (bd sd : datetime)
    (names row : list string) (d : gmap string string) :
  fill_dict names row (seq 0 (length names)) ∅ = Ok d ->
  (d !! "OPEN_DATE" = Some "Various" -> buyDate d = Raise ValueError) /\
  (d !! "CLOSE_DATE" = Some "Various" -> sellDate d = Raise ValueError) /\
  (d !! "OPEN_DATE" = Some "Various" \/ d !! "CLOSE_DATE" = Some "Various" ->
   exists e, build_txn txfDate bd sd (Some names) row = Raise e) /\
  (forall t, build_txn txfDate bd sd (Some names) row = Ok t ->
     exists b sl,
       buyDate d = Ok b /\ sellDate d = Ok sl /\
       utils.buyDate t = Some b /\ buyDateStr t = Some (txfDate b) /\
       utils.sellDate t = Some sl /\ sellDateStr t = Some (txfDate sl)).
Proof.
  intros Hd.
  assert (Hb : d !! "OPEN_DATE" = Some "Various" -> buyDate d = Raise ValueError)
    by (intros H; unfold buyDate, getitem; rewrite H; reflexivity).
  assert (Hs : d !! "CLOSE_DATE" = Some "Various" -> sellDate d = Raise ValueError)
    by (intros H; unfold sellDate, getitem; rewrite H; reflexivity).
  assert (Hinv : forall t, build_txn txfDate bd sd (Some names) row = Ok t ->
     exists b sl,
       buyDate d = Ok b /\ sellDate d = Ok sl /\
       utils.buyDate t = Some b /\ buyDateStr t = Some (txfDate b) /\
       utils.sellDate t = Some sl /\ sellDateStr t = Some (txfDate sl)).
  { intros t Ht. apply build_txn_spec in Ht.
    destruct Ht as (d' & adj & n & s & cb & b & p & sl & box & c0 & e
                    & Hd' & (_ & _ & _ & _ & Hbuy & _ & Hsell) & _ & _ & _ & ->).
    rewrite Hd in Hd'. injection Hd' as <-.
    exists b, sl. repeat split; assumption. }
  repeat split; try assumption.
  intros Hvar. apply not_ok_raise. intros t Ht.
  destruct (Hinv t Ht) as (b & sl & Hbuy & Hsell & _).
  destruct Hvar as [H|H]; [apply Hb in H | apply Hs in H]; congruence.
Qed.

Lemma various_date_raises_witness :
  parseFileToTxnList mdY (FIRST_LINE +:+ unlines [various_line]) (Some 2023)
  = mk_Out [] (Raise ValueError) /\
  buyDate (dict_of (row_of various_line)) = Raise ValueError.
Proof.
  split; [vm_compute; reflexivity|].
  apply (proj1 (various_date_raises mdY (jan1 2023) (dec31 2023) header_names
                  (row_of various_line) (dict_of (row_of various_line))
                  ltac:(apply dict_of_ok; vm_compute; reflexivity))).
  vm_compute. reflexivity.
Defined.

(** ** Amounts *)

(** C5, counterexample.  The statement with the value trimmed on both
    sides fails on a value with white space in front: trimmed on both
    sides it is the string [$0.00], yet the method returns a decimal, not
    the absent result. *)
Lemma washSale_leading_space_counterexample :
  strip " $0.00" = "$0.00" /\
  washSaleDisallowedAmount {[ "1099_DISALLOWED_LOSS" := " $0.00" ]}
  = Ok (Some (Finite false 0 (-2))).
Proof. split; vm_compute; reflexivity. Qed.

(** C5, amended. [washSaleDisallowedAmount] returns the absent result
    exactly when the value of [1099_DISALLOWED_LOSS], with its trailing
    white space removed, is the string [$0.00]; otherwise its result is
    that of [Decimal] on that value without commas and dollar signs: the
    decimal read, or the exception of [Decimal].  [costBasis] and
    [saleProceeds] hand [1099_COST] and [1099_PROCEEDS] to [Decimal] after
    the same removal, and a cost of [$1,234.56] is the decimal of
    coefficient 123456 and exponent -2, which is 1234.56. *)
Theorem amounts_parsed (d : gmap string string) :
  (forall v, d !! "1099_DISALLOWED_LOSS" = Some v ->
     (washSaleDisallowedAmount d = Ok None <-> rstrip v = "$0.00") /\
     (rstrip v <> "$0.00" ->
      washSaleDisallowedAmount d
      = Some <$> Decimal_of_str (unformatted (rstrip v)))) /\
  (forall v, d !! "1099_COST" = Some v ->
     costBasis d = Decimal_of_str (unformatted v)) /\
  (forall v, d !! "1099_PROCEEDS" = Some v ->
     saleProceeds d = Decimal_of_str (unformatted v)) /\
  (d !! "1099_COST" = Some "$1,234.56" ->
     costBasis d = Ok (Finite false 123456 (-2))).
Proof.
  assert (Hc : forall v, d !! "1099_COST" = Some v ->
                         costBasis d = Decimal_of_str (unformatted v))
    by (intros v H; unfold costBasis, getitem; rewrite H; reflexivity).
  split; [|split; [exact Hc|split]].
  - intros v H. unfold washSaleDisallowedAmount, getitem, str_eqb.
    rewrite H. simpl. case_bool_decide as Hv.
    + split; [tauto|]. intros Hne. destruct (Hne Hv).
    + split; [|reflexivity].
      split; [|intros Heq; destruct (Hv Heq)].
      destruct (Decimal_of_str _); discriminate.
  - intros v H. unfold saleProceeds, getitem. rewrite H. reflexivity.
  - intros H. rewrite (Hc _ H). vm_compute. reflexivity.
Qed.

Lemma amounts_parsed_witness :
  washSaleDisallowedAmount amounts_example = Ok None /\
  costBasis amounts_example = Ok (Finite false 123456 (-2)) /\
  saleProceeds amounts_example = Decimal_of_str "1000".
Proof.
  split; [|split].
  - apply (proj1 (proj1 (amounts_parsed amounts_example) "$0.00  "
                    ltac:(vm_compute; reflexivity))).
    vm_compute. reflexivity.
  - apply (proj2 (proj2 (proj2 (amounts_parsed amounts_example)))).
    vm_compute. reflexivity.
  - apply (proj1 (proj2 (proj2 (amounts_parsed amounts_example))) "1,000").
    vm_compute. reflexivity.
Defined.

(** ** Tax-year filter *)

Lemma skipped_length y ts a :
  length (skipped y (ranked_from a ts))
  = length (filter (fun t => sell_year t <> Some y) ts).
Proof.
  unfold skipped, ranked_from. revert a.
  induction ts as [|t ts IH]; intros a; [reflexivity|].
  cbn [length seq zip zip_with]. rewrite !filter_cons. cbn [snd].
  destruct (decide (sell_year t <> Some y)); cbn [length]; rewrite IH; reflexivity.
Qed.

Lemma parse_valid_rows txfDate content y recs err header data ts :
  1 <= y <= 9999 ->
  csv_reader content = (recs, err) ->
  fst <$> recs = header :: data ->
  Forall2 (fun row t =>
             build_txn txfDate (jan1 y) (dec31 y) (Some header) row = Ok t)
    data ts ->
  parseFileToTxnList txfDate content (Some y) =
  mk_Out (warning_of y <$> skipped y (ranked_from 1 ts))
    (match err with
     | Some e => Raise e
     | None => Ok (kept y ts)
     end).
Proof.
  intros Hy Hcsv Hrecs Hall.
  rewrite (parse_data_rows _ _ _ _ _ _ _ Hy Hcsv Hrecs).
  apply (for_rows_valid txfDate (jan1 y) (dec31 y) header err y data ts
           ltac:(lia) Hall 1%nat []). lia.
Qed.

Lemma sum_list_ones (l : list nat) :
  Forall (fun n => n = 1%nat) l -> sum_list l = length l.
Proof. induction 1 as [|n l -> _ IH]; simpl; [reflexivity | rewrite IH; reflexivity]. Qed.

Lemma first_line_of_single_lines recs k :
  (k <= length recs)%nat ->
  Forall (fun r => r.2 = 1%nat) (take k recs) ->
  first_line_of recs k = S k.
Proof.
  intros Hk Hall. unfold first_line_of. f_equal.
  rewrite sum_list_ones.
  - rewrite length_fmap, length_take. lia.
  - apply Forall_fmap. exact Hall.
Qed.

(** The text that the code hands to [utils.Warning] is the line of the
    spec. *)
Lemma ignoring_txn_line (d : string) (n y : Z) :
  ignoring_txn d n y = warning_line d (fmt_d n) (fmt_d y).
Proof.
  unfold ignoring_txn, warning_line, quoted.
  rewrite (append_assoc (String quotechar d)). reflexivity.
Qed.

(** C2, counterexample.  Both data rows of [broken_line_sales] are
    valid.  The sale of 2022 is the row on the fourth line of the file,
    the first data row taking the second and the third line; it is
    absent from the list returned for 2023, and its warning cites
    line 3. *)
Lemma record_number_counterexample :
  file_lines broken_line_sales !! 3%nat
  = Some (apex_row "ETH" "1" "2021-03-01" "2022-06-01" "$9.00" "$8.00"
            "$0.00" "a" +:+ nl) /\
  build_txn mdY (jan1 2023) (dec31 2023) (Some header_names)
    (row_of (apex_row "ETH" "1" "2021-03-01" "2022-06-01" "$9.00" "$8.00"
               "$0.00" "a"))
  = Ok (assembled mdY None (Finite false 1 0) "ETH" (Finite false 900 (-2))
          (mk_datetime 2021 3 1) (Finite false 800 (-2))
          (mk_datetime 2022 6 1) 321) /\
  parseFileToTxnList mdY broken_line_sales (Some 2023)
  = mk_Out [warning_line "1 ETH" "3" "2023"]
      (Ok [assembled mdY None (Finite false 25 (-1)) "BTC"
             (Finite false 10000 (-2)) (mk_datetime 2023 1 10)
             (Finite false 15000 (-2)) (mk_datetime 2023 6 1) 712]).
Proof. split; [|split]; vm_compute; reflexivity. Qed.

(** C2, amended. With a tax year [y] and a file all of whose data rows
    are valid, with records [ts] in the order of the file,
    [parseFileToTxnList] returns the records of [ts] sold in [y], in the
    order of [ts], and no other record; and it writes one warning for
    every record of [ts] not sold in [y], in the order of the file, each
    the line [warning_line] with the description of the record, the
    number of its row among the records that the reader yields, the
    header being number 1, and the year [y].  Where every record stands
    on one line of the file this number is the line of the file on
    which the row stands. *)
Theorem tax_year_filter (txfDate : datetime -> string) (content : string)
    (y : Z) (recs : list (list string * nat)) (header : list string)
    (data : list (list string)) (ts : list Transaction) :
  1 <= y <= 9999 ->
  csv_reader content = (recs, None) ->
  fst <$> recs = header :: data ->
  Forall2 (fun row t =>
             build_txn txfDate (jan1 y) (dec31 y) (Some header) row = Ok t)
    data ts ->
  let r := parseFileToTxnList txfDate content (Some y) in
  outcome r = Ok (filter (fun t => sell_year t = Some y) ts) /\
  (forall l, outcome r = Ok l ->
     sublist l ts /\
     (forall t, t ∈ ts -> sell_year t = Some y -> t ∈ l) /\
     (forall t, t ∈ l -> sell_year t = Some y)) /\
  warnings r =
    (fun kt => warning_line (fmt_s (desc kt.2)) (fmt_d (Z.of_nat kt.1 + 1))
                 (fmt_d y)) <$>
    filter (fun kt => sell_year kt.2 <> Some y) (zip (seq 1 (length ts)) ts) /\
  length (warnings r) = length (filter (fun t => sell_year t <> Some y) ts) /\
  (Forall (fun rec => rec.2 = 1%nat) recs ->
   warnings r =
     (fun kt => warning_line (fmt_s (desc kt.2))
                  (fmt_d (Z.of_nat (first_line_of recs kt.1))) (fmt_d y)) <$>
     filter (fun kt => sell_year kt.2 <> Some y) (zip (seq 1 (length ts)) ts)).
Proof.
  intros Hy Hcsv Hrecs Hall r. subst r.
  rewrite (parse_valid_rows _ _ _ _ _ _ _ _ Hy Hcsv Hrecs Hall).
  cbn [outcome warnings]. split; [reflexivity|]. split; [|split; [|split]].
  - intros l [= <-]. unfold kept. split; [apply sublist_filter|].
    split.
    + intros t Ht Hs. apply list_elem_of_filter. auto.
    + intros t Ht. apply list_elem_of_filter in Ht. apply Ht.
  - apply Forall_fmap_ext, Forall_forall. intros kt _.
    apply ignoring_txn_line.
  - rewrite length_fmap. apply skipped_length.
  - intros Hone. apply Forall_fmap_ext, Forall_forall. intros [k t] Hkt.
    unfold warning_of. rewrite ignoring_txn_line. cbn [fst snd].
    apply list_elem_of_filter in Hkt as [_ Hkt].
    apply elem_of_zip_l, elem_of_seq in Hkt.
    apply Forall2_length in Hall.
    apply (f_equal length) in Hrecs. rewrite length_fmap in Hrecs.
    simpl in Hrecs.
    rewrite first_line_of_single_lines;
      [|lia|apply Forall_take; exact Hone].
    rewrite Nat2Z.inj_succ. unfold Z.succ. reflexivity.
Qed.

Lemma three_sales_valid :
  Forall2 (fun row t =>
             build_txn mdY (jan1 2023) (dec31 2023) (Some header_names) row
             = Ok t)
    (tl (rows_of three_sales)) three_sales_txns.
Proof.
  let rows := eval vm_compute in (tl (rows_of three_sales)) in
  change (tl (rows_of three_sales)) with rows.
  unfold three_sales_txns.
  repeat (constructor; [vm_compute; reflexivity|]). constructor.
Qed.

Lemma tax_year_filter_witness :
  let r := parseFileToTxnList mdY three_sales (Some 2023) in
  outcome r
  = Ok (filter (fun t => sell_year t = Some 2023) three_sales_txns) /\
  warnings r = [warning_line "1 ETH" "3" "2023"] /\
  first_line_of (csv_reader three_sales).1 2 = 3%nat.
Proof.
  pose proof (tax_year_filter mdY three_sales 2023
                (csv_reader three_sales).1 header_names
                (tl (rows_of three_sales)) three_sales_txns
                ltac:(lia)
                ltac:(vm_compute; reflexivity)
                ltac:(vm_compute; reflexivity)
                three_sales_valid) as (Hout & _ & _ & _ & Hline).
  split; [exact Hout|].
  split; [|vm_compute; reflexivity].
  rewrite Hline by (vm_compute; repeat constructor).
  vm_compute. reflexivity.
Defined.

Example three_sales_2023 :
  parseFileToTxnList mdY three_sales (Some 2023)
  = mk_Out ["ignoring txn: " +:+ quoted "1 ETH"
            +:+ " (line 3) as the sale is not from 2023" +:+ nl]
      (Ok [assembled mdY None (Finite false 25 (-1)) "BTC"
             (Finite false 10000 (-2)) (mk_datetime 2023 1 10)
             (Finite false 15000 (-2)) (mk_datetime 2023 6 1) 712;
           assembled mdY None (Finite false 10 0) "SOL"
             (Finite false 123456 (-2)) (mk_datetime 2022 12 30)
             (Finite false 1300 0) (mk_datetime 2023 1 2) 714]).
Proof. vm_compute. reflexivity. Qed.

(** ** Line numbers *)

(** C10, counterexample.  The statement with the line of the file as
    the number cited fails on a file in which a record
    extends over two lines: the sale of 2022 stands on the fourth line of
    the file, it is the second data row, and the warning cites line 3. *)
Lemma warning_line_counterexample :
  file_lines broken_line_sales !! 3%nat
  = Some (apex_row "ETH" "1" "2021-03-01" "2022-06-01" "$9.00" "$8.00"
            "$0.00" "a" +:+ nl) /\
  first_line_of (csv_reader broken_line_sales).1 2 = 4%nat /\
  warnings (parseFileToTxnList mdY broken_line_sales (Some 2023))
  = [ignoring_txn "1 ETH" 3 2023].
Proof. repeat split; vm_compute; reflexivity. Qed.

(** C10, amended. The line number cited in a warning is the position of
    the row among the records that the reader yields, the header being
    record 1: the data row of rank [k] is reported as line [k + 1], never
    as [k].  This is the line of the file on which the row starts
    whenever each of the records before it, header included, stands on
    one line of the file. *)
Theorem warning_line_numbers (txfDate : datetime -> string) (content : string)
    (y : Z) (recs : list (list string * nat)) (header : list string)
    (data : list (list string)) (ts : list Transaction) :
  1 <= y <= 9999 ->
  csv_reader content = (recs, None) ->
  fst <$> recs = header :: data ->
  Forall2 (fun row t =>
             build_txn txfDate (jan1 y) (dec31 y) (Some header) row = Ok t)
    data ts ->
  warnings (parseFileToTxnList txfDate content (Some y)) =
    (fun kt => ignoring_txn (fmt_s (desc kt.2)) (Z.of_nat kt.1 + 1) y) <$>
    filter (fun kt => sell_year kt.2 <> Some y) (zip (seq 1 (length ts)) ts) /\
  (forall k : nat,
     (1 <= k <= length data)%nat ->
     Forall (fun r => r.2 = 1%nat) (take k recs) ->
     Z.of_nat (first_line_of recs k) = Z.of_nat k + 1).
Proof.
  intros Hy Hcsv Hrecs Hall.
  rewrite (parse_valid_rows _ _ _ _ _ _ _ _ Hy Hcsv Hrecs Hall).
  split; [reflexivity|].
  intros k Hk Hone. rewrite first_line_of_single_lines; [lia| |exact Hone].
  apply (f_equal length) in Hrecs. rewrite length_fmap in Hrecs.
  simpl in Hrecs. lia.
Qed.

Lemma warning_line_numbers_witness :
  warnings (parseFileToTxnList mdY three_sales (Some 2023))
  = [ignoring_txn "1 ETH" 3 2023] /\
  first_line_of (csv_reader three_sales).1 2 = 3%nat.
Proof.
  pose proof (warning_line_numbers mdY three_sales 2023
                (csv_reader three_sales).1 header_names
                (tl (rows_of three_sales)) three_sales_txns
                ltac:(lia)
                ltac:(vm_compute; reflexivity)
                ltac:(vm_compute; reflexivity)
                three_sales_valid) as (Hw & Hline).
  split; [exact Hw|].
  specialize (Hline 2%nat ltac:(vm_compute; lia)
                ltac:(vm_compute; repeat constructor)).
  apply Nat2Z.inj. exact Hline.
Defined.

(** ** Malformed rows *)

(** C6, counterexample.  The statement with any wrong number of columns
    fails on a row with a wrong number of
    columns that is too long: the values beyond the header are never
    read, and the parse returns the record of the row. *)
Lemma long_row_counterexample :
  length <$> rows_of long_row_file = [43%nat; 44%nat] /\
  parseFileToTxnList mdY long_row_file (Some 2023)
  = mk_Out []
      (Ok [assembled mdY None (Finite false 25 (-1)) "BTC"
             (Finite false 10000 (-2)) (mk_datetime 2023 1 10)
             (Finite false 15000 (-2)) (mk_datetime 2023 6 1) 712]).
Proof. split; vm_compute; reflexivity. Qed.

Lemma getitem_lookup {V} (d : gmap string V) k v x :
  d !! k = Some v -> getitem d k = Ok x -> x = v.
Proof. unfold getitem. intros ->. congruence. Qed.

Lemma malformed_not_built txfDate bd sd names row t :
  malformed names row ->
  build_txn txfDate bd sd (Some names) row <> Ok t.
Proof.
  intros Hbad Ht. apply build_txn_spec in Ht.
  destruct Ht as (d' & adj & n & s & cb & b & p & sl & box & c0 & e
                  & Hd' & (Hadj & Hn & _ & Hcb & Hb & Hp & Hsl)
                  & Hbox & Hc0 & He & _).
  destruct Hbad as [Hlen | d k v Hd Hk Hv].
  - rewrite (fill_dict_short_row _ _ Hlen) in Hd'. discriminate.
  - rewrite Hd in Hd'. injection Hd' as <-.
    destruct Hv as [[[-> | ->] Hv] | [[-> Hv] | [[[-> | ->] Hv]
                   | [(-> & Hne & Hv) | [-> Hv]]]]].
    + unfold buyDate, getitem in Hb. rewrite Hk in Hb. simpl in Hb.
      rewrite Hb in Hv. discriminate.
    + unfold sellDate, getitem in Hsl. rewrite Hk in Hsl. simpl in Hsl.
      rewrite Hsl in Hv. discriminate.
    + unfold numShares, getitem in Hn. rewrite Hk in Hn. simpl in Hn.
      rewrite Hn in Hv. discriminate.
    + unfold costBasis, getitem in Hcb. rewrite Hk in Hcb. simpl in Hcb.
      unfold unformatted in Hv. rewrite Hcb in Hv. discriminate.
    + unfold saleProceeds, getitem in Hp. rewrite Hk in Hp. simpl in Hp.
      unfold unformatted in Hv. rewrite Hp in Hv. discriminate.
    + unfold washSaleDisallowedAmount, getitem, str_eqb in Hadj.
      rewrite Hk in Hadj. simpl in Hadj.
      rewrite bool_decide_eq_false_2 in Hadj by exact Hne.
      unfold unformatted in Hv.
      destruct (Decimal_of_str _); discriminate.
    + apply (getitem_lookup _ _ _ _ Hk) in Hbox. subst box.
      destruct v as [|c v]; [discriminate|].
      simpl in Hc0. injection Hc0 as <-.
      rewrite code_map_box_code, Hv in He. discriminate.
Qed.

(** C6, amended. If a data row has fewer values than the header has
    names, or holds in [OPEN_DATE] or [CLOSE_DATE] a date that [strptime]
    refuses, in [QUANTITY], [1099_COST], [1099_PROCEEDS] or
    [1099_DISALLOWED_LOSS] a number that [Decimal] refuses, or in
    [8949_BOX] no letter of the table, then [parseFileToTxnList] raises:
    the one bad row aborts the parse of the file and no list, not even a
    partial one, is returned. *)
Theorem malformed_row_aborts (txfDate : datetime -> string) (content : string)
    (tax_year : option Z) (recs : list (list string * nat))
    (err : option exn) (header : list string) (data : list (list string))
    (row : list string) :
  csv_reader content = (recs, err) ->
  fst <$> recs = header :: data ->
  row ∈ data ->
  malformed header row ->
  exists e, outcome (parseFileToTxnList txfDate content tax_year) = Raise e.
Proof.
  intros Hcsv Hrecs Hin Hbad. apply not_ok_raise. intros l Hl.
  destruct (parse_ok_inv _ _ _ _ _ _ _ _ Hcsv Hrecs Hl) as (bd & sd & Hall).
  rewrite Forall_forall in Hall. destruct (Hall row Hin) as (t & Ht).
  exact (malformed_not_built _ _ _ _ _ _ Hbad Ht).
Qed.

Lemma malformed_row_aborts_witness :
  exists e,
    outcome (parseFileToTxnList mdY short_row_file (Some 2023)) = Raise e.
Proof.
  apply (malformed_row_aborts mdY short_row_file (Some 2023)
           (csv_reader short_row_file).1 (csv_reader short_row_file).2
           header_names (tl (rows_of short_row_file))
           ["5XX00001"; "2023"; "2"]).
  - apply surjective_pairing.
  - vm_compute. reflexivity.
  - vm_compute. apply list_elem_of_In. right. left. reflexivity.
  - apply too_short. vm_compute. lia.
Defined.

Example short_row_file_2023 :
  parseFileToTxnList mdY short_row_file (Some 2023)
  = mk_Out [ignoring_txn "1 ETH" 2 2023] (Raise IndexError).
Proof. vm_compute. reflexivity. Qed.

Example bad_values :
  refused "OPEN_DATE" "01/10/2023" /\ refused "CLOSE_DATE" "2023-02-30" /\
  refused "QUANTITY" "two" /\ refused "1099_COST" "$1.2.3" /\
  refused "1099_DISALLOWED_LOSS" "n/a" /\ refused "8949_BOX" "G" /\
  refused "8949_BOX" "".
Proof.
  unfold refused. repeat split.
  - left. split; [auto|reflexivity].
  - left. split; [auto|reflexivity].
  - right. left. split; reflexivity.
  - right. right. left. split; [auto|reflexivity].
  - right. right. right. left.
    split; [reflexivity | split; [discriminate | reflexivity]].
  - do 4 right. split; reflexivity.
  - do 4 right. split; [reflexivity|exact I].
Qed.

(** * Further properties of the parser *)

(** ** The dictionary of a row *)

Lemma fill_dict_range names row n :
  forall (a : nat) (d : gmap string string),
  (a + n <= length names)%nat -> (a + n <= length row)%nat ->
  fill_dict names row (seq a n) d
  = Ok (foldl (fun m kv => <[kv.1 := kv.2]> m) d
          (zip (take n (drop a names)) (drop a row))).
Proof.
  induction n as [|n IH]; intros a d Hn Hr; [reflexivity|].
  cbn [seq fill_dict]. unfold getindex.
  destruct (lookup_lt_is_Some_2 row a ltac:(lia)) as [v Hv].
  destruct (lookup_lt_is_Some_2 names a ltac:(lia)) as [k Hk].
  rewrite Hv, Hk. simpl.
  rewrite (IH (S a) _ ltac:(lia) ltac:(lia)).
  rewrite (drop_S names k a Hk), (drop_S row v a Hv). reflexivity.
Qed.

Lemma foldl_insert_lookup (l : list (string * string)) (k : string) :
  foldl (fun m kv => <[kv.1 := kv.2]> m) (∅ : gmap string string) l !! k
  = snd <$> last (filter (fun kv => kv.1 = k) l).
Proof.
  induction l as [|[k' v'] l IH] using rev_ind; [reflexivity|].
  rewrite foldl_app, filter_app. cbn [foldl fst snd].
  rewrite filter_cons, filter_nil. cbn [fst].
  destruct (decide (k' = k)) as [->|Hne].
  - rewrite lookup_insert_eq, last_snoc. reflexivity.
  - rewrite lookup_insert_ne by exact Hne. rewrite app_nil_r. exact IH.
Qed.

Lemma filter_none {A} (P : A -> Prop) `{forall x, Decision (P x)} (l : list A) :
  (forall x, x ∈ l -> ~ P x) -> filter P l = [].
Proof.
  induction l as [|x l IH]; intros Hno; [reflexivity|].
  rewrite filter_cons_False by (apply Hno; left).
  apply IH. intros y Hy. apply Hno. now right.
Qed.

Lemma fill_dict_ok names row :
  (length names <= length row)%nat ->
  exists d, fill_dict names row (seq 0 (length names)) ∅ = Ok d /\
            forall k, d !! k = column_value names row k.
Proof.
  intros Hlen. eexists. split.
  - apply fill_dict_range; simpl; lia.
  - intros k. rewrite drop_0, firstn_all. apply foldl_insert_lookup.
Qed.

Lemma fill_dict_missing names row d k :
  fill_dict names row (seq 0 (length names)) ∅ = Ok d ->
  k ∉ names -> d !! k = None.
Proof.
  intros Hd Hk.
  destruct (Nat.lt_ge_cases (length row) (length names)) as [Hlt|Hge].
  { rewrite (fill_dict_short_row _ _ Hlt) in Hd. discriminate. }
  destruct (fill_dict_ok names row Hge) as (d' & Hd' & Hval).
  rewrite Hd in Hd'. injection Hd' as <-.
  rewrite Hval. unfold column_value.
  rewrite filter_none; [reflexivity|].
  intros [k' v'] Hin Heq. simpl in Heq. subst k'.
  apply Hk. apply list_elem_of_lookup in Hin as [i Hi].
  apply lookup_zip_with_Some in Hi as (x & y & Hxy & Hx & Hy).
  injection Hxy as -> ->. apply list_elem_of_lookup. eauto.
Qed.

(** X1. The dictionary of a row.  A row with fewer values than the header
    has names raises [IndexError].  Otherwise the dictionary is built, and
    it gives each name the value at the same position of the row: when a
    name stands twice in the header, its last position counts; a name
    that is not in the header has no value; the values of the row beyond
    the header are in no entry. *)
Theorem row_dictionary (names row : list string) :
  ((length row < length names)%nat ->
   fill_dict names row (seq 0 (length names)) ∅ = Raise IndexError) /\
  ((length names <= length row)%nat ->
   exists d,
     fill_dict names row (seq 0 (length names)) ∅ = Ok d /\
     (forall k, d !! k = column_value names row k) /\
     (forall k, k ∉ names -> d !! k = None) /\
     (forall (i : nat) k v,
        names !! i = Some k -> row !! i = Some v ->
        (forall j : nat, (i < j)%nat -> names !! j <> Some k) ->
        d !! k = Some v)).
Proof.
  split; [apply fill_dict_short_row|].
  intros Hlen. destruct (fill_dict_ok names row Hlen) as (d & Hd & Hval).
  exists d. split; [exact Hd|]. split; [exact Hval|]. split.
  - intros k Hk. exact (fill_dict_missing _ _ _ _ Hd Hk).
  - intros i k v Hk Hv Hlast. rewrite Hval. unfold column_value.
    assert (Hsplit : zip names row
                     = take i (zip names row) ++ (k, v) :: drop (S i) (zip names row)).
    { rewrite <- (take_drop i (zip names row)) at 1. f_equal.
      apply drop_S. apply lookup_zip_with_Some. eauto. }
    rewrite Hsplit, filter_app, filter_cons. cbn [fst].
    rewrite decide_True by reflexivity.
    rewrite (filter_none _ (drop (S i) (zip names row))).
    + rewrite last_snoc. reflexivity.
    + intros [k' v'] Hin Heq. simpl in Heq. subst k'.
      apply list_elem_of_lookup in Hin as [j Hj].
      rewrite lookup_drop in Hj.
      apply lookup_zip_with_Some in Hj as (x & y & Hxy & Hx & Hy).
      injection Hxy as -> ->. apply (Hlast (S i + j)%nat); [lia | exact Hx].
Qed.

Lemma row_dictionary_witness :
  fill_dict twice_symbol ["BTC"; "2.5"] (seq 0 (length twice_symbol)) ∅
  = Raise IndexError /\
  exists d,
    fill_dict twice_symbol ["BTC"; "2.5"; "ETH"; "more"]
      (seq 0 (length twice_symbol)) ∅ = Ok d /\
    d !! "SYMBOL" = Some "ETH" /\ d !! "8949_BOX" = None.
Proof.
  split.
  - apply (proj1 (row_dictionary twice_symbol ["BTC"; "2.5"])). simpl. lia.
  - destruct (proj2 (row_dictionary twice_symbol ["BTC"; "2.5"; "ETH"; "more"])
                ltac:(simpl; lia)) as (d & Hd & Hval & _).
    exists d. split; [exact Hd|]. rewrite !Hval. split; reflexivity.
Defined.

(** ** A header without a column that the parser reads *)

Lemma getitem_missing {V} (d : gmap string V) (k : string) :
  d !! k = None -> getitem d k = Raise (KeyError k).
Proof. unfold getitem. intros ->. reflexivity. Qed.

Lemma getitem_ok {V} (d : gmap string V) (k : string) (v : V) :
  getitem d k = Ok v -> d !! k = Some v.
Proof. unfold getitem. destruct (d !! k); [congruence|discriminate]. Qed.

Lemma extracted_columns d adj n s c b p sl box k :
  extracted d adj n s c b p sl -> getitem d "8949_BOX" = Ok box ->
  k ∈ columns_read -> is_Some (d !! k).
Proof.
  intros (Ha & Hn & Hs & Hc & Hb & Hp & Hsl) Hbox Hk.
  unfold washSaleDisallowedAmount, numShares, symbol, costBasis, buyDate,
    saleProceeds, sellDate in *.
  unfold columns_read in Hk. apply list_elem_of_In in Hk. simpl in Hk.
  repeat (destruct Hk as [<-|Hk]); [..|destruct Hk];
    match goal with
    | H : context [getitem d ?key] |- is_Some (d !! ?key) =>
        destruct (getitem d key) as [x|] eqn:Hx; [|discriminate H];
        apply getitem_ok in Hx; rewrite Hx; eauto
    end.
Qed.

(** X2. A header without one of the columns that the loop body reads lets
    no row through: whatever the row, no record is built from it.  When
    the column missing is [1099_DISALLOWED_LOSS], the first one read, a
    row with a value for every name of the header raises the [KeyError]
    of that name.  At the level of the file, a parse under such a header
    succeeds only when the file has no data row. *)
Theorem missing_column_raises (txfDate : datetime -> string)
    (bd sd : datetime) (names row : list string) (k : string) :
  k ∈ columns_read -> k ∉ names ->
  (exists e, build_txn txfDate bd sd (Some names) row = Raise e) /\
  (k = "1099_DISALLOWED_LOSS" -> (length names <= length row)%nat ->
   build_txn txfDate bd sd (Some names) row
   = Raise (KeyError "1099_DISALLOWED_LOSS")) /\
  (forall content tax_year recs err data l,
     csv_reader content = (recs, err) -> fst <$> recs = names :: data ->
     outcome (parseFileToTxnList txfDate content tax_year) = Ok l ->
     data = [] /\ l = []).
Proof.
  intros Hk Hno.
  assert (Hnone : forall row' bd' sd' t,
            build_txn txfDate bd' sd' (Some names) row' <> Ok t).
  { intros row' bd' sd' t Ht. apply build_txn_spec in Ht.
    destruct Ht as (d & adj & n & s & c & b & p & sl & box & c0 & e
                    & Hd & Hex & Hbox & _).
    destruct (extracted_columns _ _ _ _ _ _ _ _ _ k Hex Hbox Hk) as [v Hv].
    rewrite (fill_dict_missing _ _ _ _ Hd Hno) in Hv. discriminate. }
  split; [apply not_ok_raise, Hnone|]. split.
  - intros -> Hlen.
    destruct (fill_dict_ok names row Hlen) as (d & Hd & _).
    unfold build_txn. simpl. rewrite Hd. simpl.
    unfold washSaleDisallowedAmount.
    rewrite (getitem_missing _ _ (fill_dict_missing _ _ _ _ Hd Hno)).
    reflexivity.
  - intros content tax_year recs err data l Hcsv Hrecs Hl.
    assert (Hdata : data = []).
    { destruct (parse_ok_inv _ _ _ _ _ _ _ _ Hcsv Hrecs Hl)
        as (bd' & sd' & Hall).
      destruct data as [|row' data]; [reflexivity|].
      apply Forall_cons in Hall as [(t & Ht) _].
      destruct (Hnone _ _ _ _ Ht). }
    split; [exact Hdata|]. subst data.
    unfold parseFileToTxnList in Hl.
    rewrite outcome_bind in Hl. cbn [lift outcome] in Hl.
    destruct (datetime_new tax_year 1 1); [|discriminate].
    rewrite outcome_bind in Hl. cbn [lift outcome] in Hl.
    destruct (datetime_new tax_year 12 31); [|discriminate].
    rewrite Hcsv, Hrecs in Hl. cbn [fmap list_fmap for_rows] in Hl.
    change (0 + 1 =? 1) with true in Hl. cbv iota in Hl.
    destruct err; [discriminate|]. injection Hl as <-. reflexivity.
Qed.

Lemma missing_column_raises_witness :
  exists e,
    build_txn mdY (jan1 2023) (dec31 2023) (Some no_quantity)
      ["$0.00"; "BTC"; "$100.00"; "2023-01-10"; "$150.00"; "2023-06-01"; "C"]
    = Raise e.
Proof.
  apply (proj1 (missing_column_raises mdY (jan1 2023) (dec31 2023) no_quantity
                  ["$0.00"; "BTC"; "$100.00"; "2023-01-10"; "$150.00";
                   "2023-06-01"; "C"] "QUANTITY"
                  ltac:(vm_compute; repeat constructor)
                  ltac:(vm_compute; intros H;
                        repeat (apply elem_of_cons in H as [[=]|H]);
                        inversion H))).
Defined.

Example no_quantity_file_2023 :
  parseFileToTxnList mdY no_quantity_file (Some 2023)
  = mk_Out [] (Raise (KeyError "QUANTITY")).
Proof. vm_compute. reflexivity. Qed.

(** ** The bounds of the tax year *)

(** X3. A tax year outside 1..9999 makes [datetime] raise at line 101,
    before the file is read and with no warning written: [ValueError]
    when the year fits a C [int], [OverflowError] when it does not.  So
    a parse that returns a list was given a tax year in 1..9999, and in
    particular the year 0, the one [int] for which the test of line 155
    would skip the filter, never reaches the loop. *)
Theorem tax_year_bounds (txfDate : datetime -> string) (content : string) :
  (forall y, -2147483648 <= y <= 2147483647 -> ~ (1 <= y <= 9999) ->
     parseFileToTxnList txfDate content (Some y)
     = mk_Out [] (Raise ValueError)) /\
  (forall y, ~ (-2147483648 <= y <= 2147483647) ->
     parseFileToTxnList txfDate content (Some y)
     = mk_Out [] (Raise OverflowError)) /\
  (forall tax_year l,
     outcome (parseFileToTxnList txfDate content tax_year) = Ok l ->
     exists y, tax_year = Some y /\ 1 <= y <= 9999).
Proof.
  assert (Hfit : forall y, -2147483648 <= y <= 2147483647 ->
            fits_int y = true).
  { intros y Hy. unfold fits_int. apply andb_true_intro.
    split; apply Z.leb_le; lia. }
  assert (Hunfit : forall y, ~ (-2147483648 <= y <= 2147483647) ->
            datetime_new (Some y) 1 1 = Raise OverflowError).
  { intros y Hy. unfold datetime_new, fits_int.
    destruct (Z.leb_spec (-2147483648) y), (Z.leb_spec y 2147483647);
      try reflexivity. lia. }
  assert (Hout : forall y, -2147483648 <= y <= 2147483647 ->
            ~ (1 <= y <= 9999) ->
            datetime_new (Some y) 1 1 = Raise ValueError).
  { intros y Hf Hy. unfold datetime_new. rewrite (Hfit y Hf).
    destruct (Z.leb_spec 1 y), (Z.leb_spec y 9999); try reflexivity. lia. }
  split; [|split].
  - intros y Hf Hy. unfold parseFileToTxnList. rewrite (Hout y Hf Hy).
    reflexivity.
  - intros y Hf. unfold parseFileToTxnList. rewrite (Hunfit y Hf).
    reflexivity.
  - intros [y|] l Hl.
    + exists y. split; [reflexivity|].
      destruct (decide (1 <= y <= 9999)) as [Hy|Hy]; [exact Hy|].
      unfold parseFileToTxnList in Hl.
      destruct (decide (-2147483648 <= y <= 2147483647)) as [Hf|Hf].
      * rewrite (Hout y Hf Hy) in Hl. discriminate.
      * rewrite (Hunfit y Hf) in Hl. discriminate.
    + discriminate Hl.
Qed.

Lemma tax_year_bounds_witness :
  parseFileToTxnList mdY three_sales (Some 0) = mk_Out [] (Raise ValueError) /\
  parseFileToTxnList mdY three_sales (Some 10000)
  = mk_Out [] (Raise ValueError) /\
  parseFileToTxnList mdY three_sales (Some 2147483648)
  = mk_Out [] (Raise OverflowError).
Proof.
  split; [|split].
  - apply (proj1 (tax_year_bounds mdY three_sales) 0); lia.
  - apply (proj1 (tax_year_bounds mdY three_sales) 10000); lia.
  - apply (proj1 (proj2 (tax_year_bounds mdY three_sales)) 2147483648); lia.
Defined.

(** ** The first row that raises *)

Lemma for_rows_prefix txfDate bd sd names err (y : Z) good ts rest :
  y <> 0 ->
  Forall2 (fun row t => build_txn txfDate bd sd (Some names) row = Ok t)
    good ts ->
  forall (a : nat) acc, (1 <= a)%nat ->
  for_rows txfDate (Some y) bd sd (good ++ rest) err (Z.of_nat a)
    (Some names) acc =
  let o := for_rows txfDate (Some y) bd sd rest err
             (Z.of_nat (a + length good)) (Some names) (acc ++ kept y ts) in
  mk_Out ((warning_of y <$> skipped y (ranked_from a ts)) ++ warnings o)
    (outcome o).
Proof.
  intros Hy Hall. induction Hall as [|row t good ts Hrow Hall IH];
    intros a acc Ha.
  - cbn [app length ranked_from skipped kept]. unfold kept, skipped, ranked_from.
    cbn [length seq zip zip_with]. rewrite !filter_nil, app_nil_r, Nat.add_0_r.
    cbn [fmap list_fmap app]. symmetry. apply Out_eta.
  - cbn [app for_rows].
    replace (Z.of_nat a + 1 =? 1) with false by (symmetry; apply Z.eqb_neq; lia).
    rewrite Hrow, lift_ok_bind.
    destruct (build_txn_sellDate _ _ _ _ _ _ Hrow) as (sl & Hsl).
    unfold year_filter. pose proof Hy as Hy0. apply Z.eqb_neq in Hy0.
    rewrite Hy0. cbn [negb]. rewrite Hsl. cbn [attr]. rewrite lift_ok_bind.
    assert (Hsy : sell_year t = Some (year sl))
      by (unfold sell_year; rewrite Hsl; reflexivity).
    assert (Hsa : Z.of_nat a + 1 = Z.of_nat (S a)) by lia.
    specialize (IH (S a)).
    unfold ranked_from, skipped, kept in *. cbn [length seq zip zip_with].
    rewrite !filter_cons. cbn [snd]. rewrite !Hsy.
    replace (a + S (length good))%nat with (S a + length good)%nat by lia.
    destruct (Z.eqb_spec (year sl) y) as [Heq|Hne]; cbn [negb].
    + rewrite decide_False by (intros Hc; apply Hc; congruence).
      rewrite decide_True by congruence.
      unfold mret, Out_mret, mbind, Out_mbind, Out_bind.
      cbn [outcome warnings app].
      rewrite Hsa, (IH (acc ++ [t])) by lia.
      cbn [outcome warnings]. rewrite <- app_assoc. reflexivity.
    + rewrite decide_True by congruence.
      rewrite decide_False by congruence.
      unfold mret, Out_mret, mbind, Out_mbind, Out_bind, Warning.
      cbn [outcome warnings app].
      rewrite !Hsa, (IH acc) by lia.
      cbn [outcome warnings fmap list_fmap app]. unfold warning_of.
      cbn [fst snd]. rewrite Hsa. reflexivity.
Qed.

Lemma for_rows_raise txfDate tax_year bd sd names err row rest a acc e :
  1 <= a ->
  build_txn txfDate bd sd (Some names) row = Raise e ->
  for_rows txfDate tax_year bd sd (row :: rest) err a (Some names) acc
  = mk_Out [] (Raise e).
Proof.
  intros Ha Hrow. cbn [for_rows].
  replace (a + 1 =? 1) with false by (symmetry; apply Z.eqb_neq; lia).
  rewrite Hrow. reflexivity.
Qed.

(** X4. The first data row that raises decides the parse: its exception
    is the one [parseFileToTxnList] raises, the warnings written are
    those of the out-of-year rows before it, and nothing of the rows
    after it, good or bad, nor an error of the reader further down,
    has any effect. *)
Theorem first_bad_row_decides (txfDate : datetime -> string)
    (content : string) (y : Z) (recs : list (list string * nat))
    (err : option exn) (header : list string)
    (good : list (list string)) (ts : list Transaction)
    (bad : list string) (rest : list (list string)) (e : exn) :
  1 <= y <= 9999 ->
  csv_reader content = (recs, err) ->
  fst <$> recs = header :: good ++ bad :: rest ->
  Forall2 (fun row t =>
             build_txn txfDate (jan1 y) (dec31 y) (Some header) row = Ok t)
    good ts ->
  build_txn txfDate (jan1 y) (dec31 y) (Some header) bad = Raise e ->
  parseFileToTxnList txfDate content (Some y)
  = mk_Out
      ((fun kt => ignoring_txn (fmt_s (desc kt.2)) (Z.of_nat kt.1 + 1) y) <$>
       filter (fun kt => sell_year kt.2 <> Some y) (zip (seq 1 (length ts)) ts))
      (Raise e).
Proof.
  intros Hy Hcsv Hrecs Hgood Hbad.
  rewrite (parse_data_rows _ _ _ _ _ _ _ Hy Hcsv Hrecs).
  pose proof (for_rows_prefix txfDate (jan1 y) (dec31 y) header err y good ts
                (bad :: rest) ltac:(lia) Hgood 1%nat [] ltac:(lia)) as Hpre.
  cbv zeta in Hpre.
  rewrite (for_rows_raise txfDate (Some y) (jan1 y) (dec31 y) header err bad
             rest (Z.of_nat (1 + length good)) ([] ++ kept y ts) e) in Hpre
    by (lia || exact Hbad).
  cbn [warnings outcome] in Hpre. rewrite app_nil_r in Hpre. exact Hpre.
Qed.

Lemma first_bad_row_decides_witness :
  parseFileToTxnList mdY short_row_file (Some 2023)
  = mk_Out [ignoring_txn "1 ETH" 2 2023] (Raise IndexError).
Proof.
  apply (first_bad_row_decides mdY short_row_file 2023
           (csv_reader short_row_file).1 (csv_reader short_row_file).2
           header_names
           [row_of (apex_row "ETH" "1" "2021-03-01" "2022-06-01" "$9.00"
                      "$8.00" "$0.00" "a")]
           [assembled mdY None (Finite false 1 0) "ETH" (Finite false 900 (-2))
              (mk_datetime 2021 3 1) (Finite false 800 (-2))
              (mk_datetime 2022 6 1) 321]
           ["5XX00001"; "2023"; "2"] [] IndexError).
  - lia.
  - apply surjective_pairing.
  - vm_compute. reflexivity.
  - constructor; [vm_compute; reflexivity | constructor].
  - vm_compute. reflexivity.
Defined.

(** ** A file without data rows *)

(** X5. The header is skipped, never examined: for a tax year in 1..9999,
    a file from which the reader yields no record or a single one,
    whatever that record is, gives the empty list and no warning. *)
Theorem no_data_rows (txfDate : datetime -> string) (content : string)
    (y : Z) (recs : list (list string * nat)) :
  1 <= y <= 9999 ->
  csv_reader content = (recs, None) ->
  (length recs <= 1)%nat ->
  parseFileToTxnList txfDate content (Some y) = mk_Out [] (Ok []).
Proof.
  intros Hy Hcsv Hlen. unfold parseFileToTxnList.
  rewrite datetime_new_jan1, lift_ok_bind by exact Hy.
  rewrite datetime_new_dec31, lift_ok_bind by exact Hy.
  rewrite Hcsv. destruct recs as [|r [|r' recs]]; [reflexivity..|].
  simpl in Hlen. lia.
Qed.

Lemma no_data_rows_witness :
  parseFileToTxnList mdY "" (Some 2023) = mk_Out [] (Ok []) /\
  parseFileToTxnList mdY FIRST_LINE (Some 2023) = mk_Out [] (Ok []) /\
  isFileForBroker one_line_file = false /\
  parseFileToTxnList mdY one_line_file (Some 2023) = mk_Out [] (Ok []).
Proof.
  split; [|split; [|split]].
  - apply (no_data_rows mdY "" 2023 []); [lia | reflexivity | simpl; lia].
  - apply (no_data_rows mdY FIRST_LINE 2023 (csv_reader FIRST_LINE).1);
      [lia | vm_compute; reflexivity | vm_compute; lia].
  - vm_compute. reflexivity.
  - apply (no_data_rows mdY one_line_file 2023 (csv_reader one_line_file).1);
      [lia | vm_compute; reflexivity | vm_compute; lia].
Defined.

(** ** The records that are returned *)

Lemma box_code_values c e : box_code c = Some e -> e ∈ entry_codes.
Proof.
  unfold box_code, entry_codes.
  repeat (destruct (Ascii.eqb c _); [intros [= <-]; set_solver|]).
  discriminate.
Qed.

Lemma truthy_false_zero (adj : option Decimal) :
  unset_or_zero (if truthy adj then None else adj).
Proof.
  destruct adj as [[sg coeff e| |]|]; simpl; try (left; reflexivity).
  destruct (N.eqb_spec coeff 0) as [->|]; simpl; [right; eauto | left; reflexivity].
Qed.

Lemma build_txn_returned txfDate bd sd names row t :
  build_txn txfDate bd sd (Some names) row = Ok t ->
  exists sl, utils.sellDate t = Some sl /\
             returned_record txfDate (year sl) names row t.
Proof.
  intros Ht. apply build_txn_spec in Ht.
  destruct Ht as (d & adj & n & s & c & b & p & sl & box & c0 & e
                  & Hd & (Hadj & Hn & Hs & Hc & Hb & Hp & Hsl)
                  & Hbox & Hc0 & He & ->).
  exists sl. split; [reflexivity|].
  apply getitem_ok in Hbox.
  destruct box as [|c0' box]; [discriminate Hc0|].
  injection Hc0 as ->.
  rewrite code_map_box_code in He.
  destruct (box_code (upper c0)) as [m|] eqn:Hm; [|discriminate].
  injection He as <-.
  exists d, adj, n, s, c, b, p, sl, box, c0, m. unfold assembled. cbn.
  repeat split; try assumption.
  - exact (box_code_values _ _ Hm).
  - apply truthy_false_zero.
Qed.

Lemma year_filter_kept (y : Z) line_num t t' :
  y <> 0 ->
  outcome (year_filter (Some y) line_num t) = Ok (Some t') ->
  t' = t /\ exists sl, utils.sellDate t = Some sl /\ year sl = y.
Proof.
  intros Hy. unfold year_filter. apply Z.eqb_neq in Hy. rewrite Hy. cbn [negb].
  destruct (utils.sellDate t) as [sl|]; [|discriminate].
  cbn [attr]. rewrite lift_ok_bind.
  destruct (Z.eqb_spec (year sl) y) as [Heq|Hne]; cbn [negb].
  - intros [= <-]. eauto.
  - discriminate.
Qed.

Lemma for_rows_returned txfDate bd sd names err (y : Z) data :
  y <> 0 ->
  forall (a : Z) acc l, 1 <= a ->
  outcome (for_rows txfDate (Some y) bd sd data err a (Some names) acc) = Ok l ->
  exists rows ts,
    l = acc ++ ts /\ sublist rows data /\
    Forall2 (returned_record txfDate y names) rows ts.
Proof.
  intros Hy. induction data as [|row data IH]; intros a acc l Ha Hl.
  - simpl in Hl. destruct err; [discriminate|]. injection Hl as <-.
    exists [], []. rewrite app_nil_r. repeat split; constructor.
  - cbn [for_rows] in Hl.
    replace (a + 1 =? 1) with false in Hl by (symmetry; apply Z.eqb_neq; lia).
    rewrite outcome_bind in Hl. cbn [lift outcome] in Hl.
    destruct (build_txn txfDate bd sd (Some names) row) as [t|] eqn:Hrow;
      [|discriminate].
    rewrite outcome_bind in Hl.
    destruct (outcome (year_filter (Some y) (a + 1) t)) as [[t'|]|] eqn:Hf;
      [| |discriminate].
    + destruct (year_filter_kept _ _ _ _ Hy Hf) as (-> & sl & Hsl & Hyear).
      destruct (build_txn_returned _ _ _ _ _ _ Hrow) as (sl' & Hsl' & Hrec).
      rewrite Hsl in Hsl'. injection Hsl' as <-. rewrite Hyear in Hrec.
      destruct (IH (a + 1) _ _ ltac:(lia) Hl) as (rows & ts & -> & Hsub & Hall).
      exists (row :: rows), (t :: ts). rewrite <- app_assoc.
      split; [reflexivity|]. split; [apply sublist_skip, Hsub|].
      constructor; assumption.
    + destruct (IH (a + 1) _ _ ltac:(lia) Hl) as (rows & ts & -> & Hsub & Hall).
      exists rows, ts. split; [reflexivity|].
      split; [apply sublist_cons, Hsub | exact Hall].
Qed.

(** X6. Whatever the file, the records of a list that
    [parseFileToTxnList] returns for the tax year [y] come one by one,
    in order, from data rows of the file, and each is complete and
    within the year.  With the dictionary of its row under the header
    of the file: the description is the quantity of the row as
    [Decimal] prints it, a space and the symbol of the row; cost basis
    and proceeds are those of the row; both dates are those of the row,
    each with the rendering of that very date as display string; the
    sale is of the year [y]; the entry code is the one of the box
    letter of the row and one of the six of the table; and the
    adjustment is unset or a zero. *)
Theorem returned_records_invariant (txfDate : datetime -> string)
    (content : string) (y : Z) (l : list Transaction) :
  outcome (parseFileToTxnList txfDate content (Some y)) = Ok l ->
  exists rows,
    sublist rows (data_rows content) /\
    Forall2 (returned_record txfDate y (header_of content)) rows l.
Proof.
  intros Hl. unfold parseFileToTxnList in Hl.
  destruct (decide (1 <= y <= 9999)) as [Hy|Hy].
  2:{ destruct (datetime_new (Some y) 1 1) as [d|] eqn:Hd;
        [|discriminate Hl].
      exfalso. apply Hy. unfold datetime_new in Hd.
      destruct (fits_int y && fits_int 1 && fits_int 1); [|discriminate Hd].
      cbn [negb] in Hd.
      destruct (Z.leb_spec 1 y), (Z.leb_spec y 9999); try discriminate Hd.
      lia. }
  rewrite datetime_new_jan1, lift_ok_bind in Hl by exact Hy.
  rewrite datetime_new_dec31, lift_ok_bind in Hl by exact Hy.
  unfold data_rows, header_of, rows_of.
  destruct (csv_reader content) as [recs err]. cbn [fst].
  destruct (fst <$> recs) as [|header data].
  - simpl in Hl. destruct err; [discriminate|]. injection Hl as <-.
    exists []. split; constructor.
  - cbn [for_rows] in Hl. change (0 + 1 =? 1) with true in Hl. cbv iota in Hl.
    destruct (for_rows_returned _ _ _ _ _ y _ ltac:(lia) (0 + 1) [] l
                ltac:(lia) Hl) as (rows & ts & -> & Hsub & Hall).
    exists rows. split; [exact Hsub | exact Hall].
Qed.

Lemma returned_records_invariant_witness :
  exists rows,
    sublist rows (data_rows three_sales) /\
    Forall2 (returned_record mdY 2023 (header_of three_sales)) rows
      [assembled mdY None (Finite false 25 (-1)) "BTC"
         (Finite false 10000 (-2)) (mk_datetime 2023 1 10)
         (Finite false 15000 (-2)) (mk_datetime 2023 6 1) 712;
       assembled mdY None (Finite false 10 0) "SOL"
         (Finite false 123456 (-2)) (mk_datetime 2022 12 30)
         (Finite false 1300 0) (mk_datetime 2023 1 2) 714].
Proof.
  apply (returned_records_invariant mdY three_sales 2023).
  vm_compute. reflexivity.
Defined.

(** ** Detection, then parsing *)

Lemma file_lines_is_line l rest :
  is_line l = true -> file_lines (l +:+ rest) = l :: file_lines rest.
Proof.
  induction l as [|c l IH]; [discriminate|].
  intros H. rewrite append_cons. simpl in *.
  destruct (Ascii.eqb c "010").
  - apply bool_decide_eq_true in H. subst l. reflexivity.
  - rewrite (IH H). reflexivity.
Qed.

Lemma header_names_columns : header_names = FIRST_LINE_columns.
Proof. vm_compute. reflexivity. Qed.

Lemma feed_FIRST_LINE :
  feed_line parse_reset FIRST_LINE
  = Ok (mk_Reader START_RECORD FIRST_LINE_columns EmptyString 0).
Proof. vm_compute. reflexivity. Qed.

(** X7. Detection and parsing fit together: in a file that
    [isFileForBroker] accepts, the header that [parseFileToTxnList] works
    with is the list of the 43 column names of [FIRST_LINE], the reader
    having taken exactly the first line for it, and the data rows are
    the records of the rest of the file, the text that [open] delivers
    after the first line.  So the parse of an accepted file is the loop
    over the records of the rest under these 43 names, and a data row of
    fewer than 43 values raises [IndexError]. *)
Theorem accepted_file_header (content : string) :
  isFileForBroker content = true ->
  exists rest,
    open content = FIRST_LINE +:+ rest /\
    length FIRST_LINE_columns = 43%nat /\
    csv_reader content
    = ((FIRST_LINE_columns, 1%nat) :: (csv_reader rest).1, (csv_reader rest).2) /\
    (forall txfDate y, 1 <= y <= 9999 ->
       parseFileToTxnList txfDate content (Some y)
       = for_rows txfDate (Some y) (jan1 y) (dec31 y)
           (fst <$> (csv_reader rest).1) (csv_reader rest).2 1
           (Some FIRST_LINE_columns) []) /\
    (forall txfDate bd sd row, (length row < 43)%nat ->
       build_txn txfDate bd sd (Some FIRST_LINE_columns) row = Raise IndexError).
Proof.
  intros H. apply isFileForBroker_prefix in H as (rest & Hopen).
  exists rest. split; [exact Hopen|]. split; [reflexivity|].
  assert (Hrest : open rest = rest).
  { apply open_no_cr.
    pose proof (translate_no_cr false content) as Hcr.
    fold (open content) in Hcr. rewrite Hopen, str_has_app in Hcr.
    apply orb_false_elim in Hcr as [_ Hcr]. exact Hcr. }
  assert (Hcsv : csv_reader content
                 = ((FIRST_LINE_columns, 1%nat) :: (csv_reader rest).1,
                    (csv_reader rest).2)).
  { unfold csv_reader. rewrite Hopen, Hrest.
    rewrite file_lines_is_line by (vm_compute; reflexivity).
    cbn [reader_records]. rewrite feed_FIRST_LINE.
    cbn [state fields]. rewrite bool_decide_eq_true_2 by reflexivity.
    destruct (reader_records parse_reset 0 (file_lines rest)); reflexivity. }
  split; [exact Hcsv|]. split.
  - intros txfDate y Hy.
    apply (parse_data_rows _ _ _ _ _ _ _ Hy Hcsv). reflexivity.
  - intros txfDate bd sd row Hlen. unfold build_txn. cbn [mbind result_mbind result_bind].
    rewrite fill_dict_short_row; [reflexivity|].
    change (length FIRST_LINE_columns) with 43%nat. exact Hlen.
Qed.

Lemma accepted_file_header_witness :
  exists rest,
    open three_sales = FIRST_LINE +:+ rest /\
    length FIRST_LINE_columns = 43%nat /\
    csv_reader three_sales
    = ((FIRST_LINE_columns, 1%nat) :: (csv_reader rest).1, (csv_reader rest).2) /\
    (forall txfDate y, 1 <= y <= 9999 ->
       parseFileToTxnList txfDate three_sales (Some y)
       = for_rows txfDate (Some y) (jan1 y) (dec31 y)
           (fst <$> (csv_reader rest).1) (csv_reader rest).2 1
           (Some FIRST_LINE_columns) []) /\
    (forall txfDate bd sd row, (length row < 43)%nat ->
       build_txn txfDate bd sd (Some FIRST_LINE_columns) row = Raise IndexError).
Proof.
  apply (accepted_file_header three_sales). vm_compute. reflexivity.
Defined.

(** ** Separators in the amounts *)

Lemma str_has_lstrip c s : isspace c = false -> str_has c (lstrip s) = str_has c s.
Proof.
  intros Hc. induction s as [|a s IH]; [reflexivity|]. simpl.
  destruct (isspace a) eqn:Ha; [|reflexivity].
  rewrite IH. destruct (Ascii.eqb_spec a c) as [->|]; [congruence|reflexivity].
Qed.

Lemma str_has_rstrip c s : isspace c = false -> str_has c (rstrip s) = str_has c s.
Proof.
  intros Hc. induction s as [|a s IH]; [reflexivity|]. simpl.
  destruct (rstrip s) as [|b r].
  - simpl in IH. rewrite <- IH. destruct (isspace a) eqn:Ha; simpl.
    + destruct (Ascii.eqb_spec a c) as [->|]; [congruence|reflexivity].
    + reflexivity.
  - cbn [str_has] in *. rewrite IH. reflexivity.
Qed.

Lemma str_has_replace_del c u s :
  Ascii.eqb c u = false -> str_has c (replace_del u s) = str_has c s.
Proof.
  intros Hc. induction s as [|a s IH]; [reflexivity|]. simpl.
  destruct (Ascii.eqb_spec a u) as [->|]; simpl.
  - rewrite IH, (Ascii.eqb_sym u c), Hc. reflexivity.
  - rewrite IH. reflexivity.
Qed.

Lemma str_has_span_digits c s :
  isdigit c = false -> str_has c s = str_has c (span_digits s).2.
Proof.
  intros Hc. induction s as [|a s IH]; [reflexivity|]. simpl.
  destruct (isdigit a) eqn:Ha; [|reflexivity].
  destruct (span_digits s) as [ds t]. simpl in *. rewrite <- IH.
  destruct (Ascii.eqb_spec a c) as [->|]; [congruence|reflexivity].
Qed.

Lemma str_has_eat_ci c lit s r :
  all_lower lit = true -> in_range 97 122 (lower c) = false ->
  eat_ci lit s = Some r -> str_has c s = str_has c r.
Proof.
  intros Hlit Hc. revert s. induction lit as [|l lit IH]; intros s H.
  - simpl in H. congruence.
  - destruct s as [|a s]; [discriminate|]. simpl in H, Hlit.
    apply andb_prop in Hlit as [Hl Hlit].
    destruct (Ascii.eqb_spec (lower a) l) as [Heq|]; [|discriminate].
    simpl. rewrite (IH Hlit s H).
    destruct (Ascii.eqb_spec a c) as [->|]; [congruence|reflexivity].
Qed.

Lemma eat_sign_eq s :
  eat_sign s =
  match s with
  | String a r =>
      if Ascii.eqb a "-" then (true, r)
      else if Ascii.eqb a "+" then (false, r) else (false, s)
  | EmptyString => (false, s)
  end.
Proof. destruct s as [|[[] [] [] [] [] [] [] []] r]; reflexivity. Qed.

Lemma str_has_eat_sign c s :
  Ascii.eqb c "-" = false -> Ascii.eqb c "+" = false ->
  str_has c (eat_sign s).2 = str_has c s.
Proof.
  intros Hm Hp. rewrite eat_sign_eq. destruct s as [|a r]; [reflexivity|].
  destruct (Ascii.eqb_spec a "-") as [->|]; cbn [snd str_has].
  { rewrite (Ascii.eqb_sym "-" c), Hm. reflexivity. }
  destruct (Ascii.eqb_spec a "+") as [->|]; cbn [snd str_has]; [|reflexivity].
  rewrite (Ascii.eqb_sym "+" c), Hp. reflexivity.
Qed.

Lemma point_match {A} (f : string -> A) (g : A) (s : string) :
  match s with
  | String "."%char r => f r
  | _ => g
  end =
  match s with
  | String a r => if Ascii.eqb a "." then f r else g
  | EmptyString => g
  end.
Proof. destruct s as [|[[] [] [] [] [] [] [] []] r]; reflexivity. Qed.

Section alphabet.

Variable c : ascii.
Hypothesis Hc : decimal_alphabet c = false.

Lemma alphabet_facts :
  isspace c = false /\ isdigit c = false /\
  in_range 97 122 (lower c) = false /\ Ascii.eqb c "_" = false /\
  Ascii.eqb c "+" = false /\ Ascii.eqb c "-" = false /\
  Ascii.eqb c "." = false.
Proof.
  pose proof Hc as H. unfold decimal_alphabet in H.
  do 6 (apply orb_false_elim in H as [H ?]). repeat split; assumption.
Qed.

Lemma eat_exponent_has s e r :
  eat_exponent s = Some (e, r) -> str_has c s = str_has c r.
Proof.
  destruct alphabet_facts as (_ & Hd & Hl & _ & Hp & Hm & _).
  unfold eat_exponent.
  destruct (eat_ci "e" s) as [r0|] eqn:He; [|discriminate].
  rewrite (str_has_eat_ci c "e" s r0 eq_refl Hl He).
  rewrite <- (str_has_eat_sign c r0 Hm Hp).
  destruct (eat_sign r0) as [neg r1]. cbn [snd].
  rewrite (str_has_span_digits c r1 Hd).
  destruct (span_digits r1) as [ds r2]. cbn [snd].
  destruct ds; [discriminate|]. intros [= _ <-]. reflexivity.
Qed.

Lemma parse_number_has sg s d :
  parse_number sg s = Some d -> str_has c s = false.
Proof.
  destruct alphabet_facts as (_ & Hd & _ & _ & _ & _ & Hpt).
  unfold parse_number. destruct (number_ahead s); [|discriminate].
  rewrite (str_has_span_digits c s Hd).
  destruct (span_digits s) as [intpart r1]. cbn [snd].
  rewrite (point_match span_digits (EmptyString, r1) r1).
  assert (Hfrac : str_has c r1
                  = str_has c (match r1 with
                               | String a r =>
                                   if Ascii.eqb a "." then span_digits r
                                   else (EmptyString, r1)
                               | EmptyString => (EmptyString, r1)
                               end).2).
  { destruct r1 as [|a r]; [reflexivity|].
    destruct (Ascii.eqb_spec a ".") as [->|]; [|reflexivity].
    cbn [snd str_has]. rewrite (Ascii.eqb_sym "." c), Hpt. cbn [orb].
    apply str_has_span_digits, Hd. }
  rewrite Hfrac.
  destruct (match r1 with
            | String a r =>
                if Ascii.eqb a "." then span_digits r else (EmptyString, r1)
            | EmptyString => (EmptyString, r1)
            end) as [fracpart r2]. cbn [snd].
  destruct (eat_exponent r2) as [[e r]|] eqn:He.
  - rewrite (eat_exponent_has _ _ _ He). destruct r; [reflexivity|discriminate].
  - destruct r2; [reflexivity|discriminate].
Qed.

Lemma parse_infinity_has sg s d :
  parse_infinity sg s = Some d -> str_has c s = false.
Proof.
  destruct alphabet_facts as (_ & _ & Hl & _).
  unfold parse_infinity.
  destruct (eat_ci "inf" s) as [r|] eqn:He; [|discriminate].
  rewrite (str_has_eat_ci c "inf" s r eq_refl Hl He).
  destruct r as [|a r]; [reflexivity|].
  destruct (eat_ci "inity" (String a r)) as [r'|] eqn:He'; [|discriminate].
  rewrite (str_has_eat_ci c "inity" _ r' eq_refl Hl He').
  destruct r'; [reflexivity|discriminate].
Qed.

Lemma parse_nan_has sg s d :
  parse_nan sg s = Some d -> str_has c s = false.
Proof.
  destruct alphabet_facts as (_ & Hd & Hl & _).
  unfold parse_nan.
  assert (Hs : str_has c s
               = str_has c (match eat_ci "s" s with
                            | Some r => (true, r)
                            | None => (false, s)
                            end).2).
  { destruct (eat_ci "s" s) as [r|] eqn:He; [|reflexivity].
    exact (str_has_eat_ci c "s" s r eq_refl Hl He). }
  rewrite Hs.
  destruct (match eat_ci "s" s with
            | Some r => (true, r)
            | None => (false, s)
            end) as [signal r0]. cbn [snd].
  destruct (eat_ci "nan" r0) as [r|] eqn:He; [|discriminate].
  rewrite (str_has_eat_ci c "nan" r0 r eq_refl Hl He).
  rewrite (str_has_span_digits c r Hd).
  destruct (span_digits r) as [diag r1]. cbn [snd].
  destruct r1; [reflexivity|discriminate].
Qed.

Lemma Decimal_of_str_alphabet v :
  str_has c v = true -> Decimal_of_str v = Raise InvalidOperation.
Proof.
  destruct alphabet_facts as (Hsp & _ & _ & Hu & Hp & Hm & _).
  intros Hv. unfold Decimal_of_str.
  assert (Hs : str_has c (eat_sign (replace_del "_" (strip v))).2 = true).
  { rewrite (str_has_eat_sign c _ Hm Hp), (str_has_replace_del c _ _ Hu).
    unfold strip. rewrite (str_has_lstrip c _ Hsp), (str_has_rstrip c _ Hsp).
    exact Hv. }
  destruct (eat_sign (replace_del "_" (strip v))) as [sg r]. cbn [snd] in Hs.
  destruct (parse_number sg r) as [d|] eqn:Hn.
  { rewrite (parse_number_has _ _ _ Hn) in Hs. discriminate. }
  destruct (parse_infinity sg r) as [d|] eqn:Hi.
  { rewrite (parse_infinity_has _ _ _ Hi) in Hs. discriminate. }
  destruct (parse_nan sg r) as [d|] eqn:Hna; [|reflexivity].
  rewrite (parse_nan_has _ _ _ Hna) in Hs. discriminate.
Qed.

End alphabet.

(** X8. [numShares] hands the quantity to [Decimal] as it stands: a
    [QUANTITY] that holds a comma, a dollar sign or any other ASCII
    character outside the alphabet of decimals raises
    [InvalidOperation], although [costBasis] and [saleProceeds] accept
    the same text, the commas and dollar signs being removed there
    first. *)
Theorem numShares_keeps_separators (dict : gmap string string)
    (v : string) (c : ascii) :
  dict !! "QUANTITY" = Some v ->
  str_has c v = true -> is_ascii c = true -> decimal_alphabet c = false ->
  numShares dict = Raise InvalidOperation /\
  (forall txfDate bd sd names row,
     fill_dict names row (seq 0 (length names)) ∅ = Ok dict ->
     exists e, build_txn txfDate bd sd (Some names) row = Raise e) /\
  (dict !! "1099_COST" = Some v ->
   costBasis dict = Decimal_of_str (unformatted v) /\
   str_has "," (unformatted v) = false /\ str_has "$" (unformatted v) = false).
Proof.
  intros Hq Hv _ Hc.
  assert (Hn : numShares dict = Raise InvalidOperation).
  { unfold numShares, getitem. rewrite Hq. simpl.
    exact (Decimal_of_str_alphabet c Hc v Hv). }
  split; [exact Hn|]. split.
  - intros txfDate bd sd names row Hd. apply not_ok_raise. intros t Ht.
    apply build_txn_spec in Ht.
    destruct Ht as (d' & adj & n & s & cb & b & p & sl & box & c0 & e
                    & Hd' & (_ & Hn' & _) & _).
    rewrite Hd in Hd'. injection Hd' as <-. congruence.
  - intros Hcost. split.
    + unfold costBasis, getitem. rewrite Hcost. reflexivity.
    + unfold unformatted. split.
      * rewrite str_has_replace_del by reflexivity.
        clear. induction v as [|a s IH]; [reflexivity|]. simpl.
        destruct (Ascii.eqb_spec a ","); [exact IH|]. simpl.
        rewrite IH. destruct (Ascii.eqb_spec a ","); [contradiction|reflexivity].
      * generalize (replace_del "," v). clear. intros s.
        induction s as [|a s IH]; [reflexivity|]. simpl.
        destruct (Ascii.eqb_spec a "$"); [exact IH|]. simpl.
        rewrite IH. destruct (Ascii.eqb_spec a "$"); [contradiction|reflexivity].
Qed.

Lemma numShares_keeps_separators_witness :
  numShares thousand_shares = Raise InvalidOperation /\
  costBasis thousand_shares = Ok (Finite false 1000 0).
Proof.
  destruct (numShares_keeps_separators thousand_shares "1,000" ","
              ltac:(vm_compute; reflexivity) ltac:(vm_compute; reflexivity)
              ltac:(vm_compute; reflexivity) ltac:(vm_compute; reflexivity))
    as (Hn & _ & Hcost).
  split; [exact Hn|].
  destruct (Hcost ltac:(vm_compute; reflexivity)) as (-> & _).
  vm_compute. reflexivity.
Defined.

(** ** [isShortTerm] on any dictionary *)

Lemma strptime_raises s e : strptime_Ymd s = Raise e -> e = ValueError.
Proof.
  unfold strptime_Ymd.
  destruct (rx_Ymd s) as [[[[y m] d] [|a r]]|]; try congruence.
  destruct (datetime_new (Some y) m d); congruence.
Qed.

(** X9. [isShortTerm] returns a value for no dictionary at all.  The date
    of sale is read first: a dictionary without [CLOSE_DATE] raises the
    [KeyError] of that name even when [OPEN_DATE] is missing or
    malformed too; a date that [strptime] refuses raises [ValueError];
    then the same for [OPEN_DATE]; and with two good dates the method
    raises [AttributeError]. *)
Theorem isShortTerm_never_returns (dict : gmap string string) :
  (forall v, isShortTerm dict <> Ok v) /\
  (dict !! "CLOSE_DATE" = None ->
   isShortTerm dict = Raise (KeyError "CLOSE_DATE")) /\
  (forall s, dict !! "CLOSE_DATE" = Some s -> is_ok (strptime_Ymd s) = false ->
   isShortTerm dict = Raise ValueError) /\
  (forall s, dict !! "CLOSE_DATE" = Some s -> is_ok (strptime_Ymd s) = true ->
   (dict !! "OPEN_DATE" = None ->
    isShortTerm dict = Raise (KeyError "OPEN_DATE")) /\
   (forall b, dict !! "OPEN_DATE" = Some b ->
      isShortTerm dict
      = if is_ok (strptime_Ymd b) then Raise (AttributeError "years")
        else Raise ValueError)).
Proof.
  unfold isShortTerm, sellDate, buyDate, getitem. repeat split.
  - intros v. destruct (dict !! "CLOSE_DATE") as [s|]; [|discriminate]. simpl.
    destruct (strptime_Ymd s); [|discriminate]. simpl.
    destruct (dict !! "OPEN_DATE") as [b|]; [|discriminate]. simpl.
    destruct (strptime_Ymd b); discriminate.
  - intros ->. reflexivity.
  - intros s -> Hs. simpl.
    destruct (strptime_Ymd s) as [|e] eqn:He; [discriminate|].
    rewrite (strptime_raises _ _ He). reflexivity.
  - rename H into Hs. rename H0 into Hok. intros Hb. rewrite Hs. simpl.
    destruct (strptime_Ymd s); [|discriminate]. simpl. rewrite Hb. reflexivity.
  - rename H into Hs. rename H0 into Hok. intros b Hb. rewrite Hs. simpl.
    destruct (strptime_Ymd s); [|discriminate]. simpl. rewrite Hb. simpl.
    destruct (strptime_Ymd b) as [|e] eqn:He; [reflexivity|].
    rewrite (strptime_raises _ _ He). reflexivity.
Qed.

Lemma isShortTerm_never_returns_witness :
  isShortTerm ∅ = Raise (KeyError "CLOSE_DATE") /\
  isShortTerm sale_only = Raise (KeyError "OPEN_DATE").
Proof.
  split.
  - apply (proj1 (proj2 (isShortTerm_never_returns ∅))). reflexivity.
  - apply (proj1 (proj2 (proj2 (proj2 (isShortTerm_never_returns sale_only)))
                    "2023-02-01" ltac:(vm_compute; reflexivity)
                    ltac:(vm_compute; reflexivity))).
    vm_compute. reflexivity.
Defined.

(** ** Commas and dollar signs wherever they stand *)

Lemma replace_del_app c a b :
  replace_del c (a +:+ b) = replace_del c a +:+ replace_del c b.
Proof.
  induction a as [|x a IH]; [reflexivity|].
  rewrite append_cons. simpl. destruct (Ascii.eqb x c); [exact IH|].
  rewrite append_cons, IH. reflexivity.
Qed.

Lemma unformatted_separator a b sep :
  sep = "," \/ sep = "$" ->
  unformatted (a +:+ sep +:+ b) = unformatted (a +:+ b).
Proof.
  intros [-> | ->]; unfold unformatted;
    rewrite !replace_del_app; reflexivity.
Qed.

(** X10. [costBasis] and [saleProceeds] remove the commas and the dollar
    signs wherever they stand, not only a dollar sign in front and the
    commas between thousands: a value and the same value with a comma or
    a dollar sign put in at any place give the same result, decimal or
    exception. *)
Theorem amounts_ignore_separators (d d' : gmap string string)
    (a b sep : string) :
  sep = "," \/ sep = "$" ->
  (d !! "1099_COST" = Some (a +:+ sep +:+ b) ->
   d' !! "1099_COST" = Some (a +:+ b) ->
   costBasis d = costBasis d') /\
  (d !! "1099_PROCEEDS" = Some (a +:+ sep +:+ b) ->
   d' !! "1099_PROCEEDS" = Some (a +:+ b) ->
   saleProceeds d = saleProceeds d').
Proof.
  intros Hsep. split; intros H H';
    unfold costBasis, saleProceeds, getitem; rewrite H, H'; simpl;
    fold (unformatted (a +:+ sep +:+ b)); fold (unformatted (a +:+ b));
    rewrite (unformatted_separator a b sep Hsep); reflexivity.
Qed.

Lemma amounts_ignore_separators_witness :
  costBasis {[ "1099_COST" := "12,3$4.5" ]}
  = costBasis {[ "1099_COST" := "12,34.5" ]}.
Proof.
  apply (proj1 (amounts_ignore_separators
                  {[ "1099_COST" := "12,3$4.5" ]} {[ "1099_COST" := "12,34.5" ]}
                  "12,3" "4.5" "$" ltac:(right; reflexivity)));
    vm_compute; reflexivity.
Defined.
